(** * tv-mt4-bridge: a verified model of [app.py]

    The bridge receives trade alerts on [POST /webhook], keeps the last
    accepted signal in a two-slot in-memory store ([STATE["last"]],
    [STATE["pending"]]) and hands the pending one to the polling terminal on
    [GET /pull].

    The development is a shallow embedding of [app.py]:
    - Python text is a list of Unicode code points; the functions of the
      interpreter that the program calls but does not define (case mapping,
      [float(str)], [repr(float)], [int(str)], [datetime.isoformat]) are the
      fields of the class [Runtime], so every theorem holds whatever the
      interpreter does there;
    - Python floats are binary64 values ([spec_float]);
    - a handler that can raise returns a [result]; an exception that leaves a
      handler is the response [ServerError];
    - the wall clock and [uuid.uuid4()] are inputs of the handler that reads
      them. *)

From Stdlib Require Import ZArith NArith List Bool Lia.
From Stdlib Require Import Strings.String Strings.Ascii.
From Stdlib Require Import Floats.SpecFloat.
Import ListNotations.

Set Warnings "-register-all".
Local Open Scope Z_scope.

(** ** Python text *)

Definition codepoint := N.
Definition str := list codepoint.

(** An ASCII literal of the source as Python text. *)
Definition lit (s : string) : str := map N_of_ascii (list_ascii_of_string s).

Fixpoint str_eqb (a b : str) : bool :=
  match a, b with
  | [], [] => true
  | x :: a', y :: b' => N.eqb x y && str_eqb a' b'
  | _, _ => false
  end.

(** [c.isspace()]: the code points [str.strip()] removes when it is called
    with no argument. *)
Definition isspace (c : codepoint) : bool :=
  let z := Z.of_N c in
  ((9 <=? z) && (z <=? 13)) || ((28 <=? z) && (z <=? 32))
  || (z =? 133) || (z =? 160) || (z =? 5760)
  || ((8192 <=? z) && (z <=? 8202))
  || (z =? 8232) || (z =? 8233) || (z =? 8239) || (z =? 8287) || (z =? 12288).

Fixpoint lstrip (s : str) : str :=
  match s with
  | c :: s' => if isspace c then lstrip s' else s
  | [] => []
  end.

Definition rstrip (s : str) : str := rev (lstrip (rev s)).

(** [s.strip()] *)
Definition strip (s : str) : str := rstrip (lstrip s).

(** [s.split(sep)] for a separator of one code point. *)
Fixpoint split_on (sep : codepoint) (s : str) : list str :=
  match s with
  | [] => [[]]
  | c :: s' =>
      if N.eqb c sep then [] :: split_on sep s'
      else match split_on sep s' with
           | f :: fs => (c :: f) :: fs
           | [] => [[c]]
           end
  end.

(** [s.replace(a, b)] for [a] and [b] of one code point each. *)
Definition replace_char (a b : codepoint) (s : str) : str :=
  map (fun c => if N.eqb c a then b else c) s.

(** [sep.join(fields)] *)
Fixpoint join (sep : str) (fields : list str) : str :=
  match fields with
  | [] => []
  | [f] => f
  | f :: fs => f ++ sep ++ join sep fs
  end.

Definition pipe : codepoint := 124%N.

(** [str(n)] for an integer. *)
Definition digit_char (d : Z) : codepoint := Z.to_N (48 + d).

Fixpoint digits_fuel (fuel : nat) (n : Z) (acc : str) : str :=
  match fuel with
  | O => acc
  | S k =>
      if n <? 10 then digit_char n :: acc
      else digits_fuel k (n / 10) (digit_char (n mod 10) :: acc)
  end.

Definition str_of_Z (z : Z) : str :=
  let a := Z.abs z in
  let ds := digits_fuel (S (Z.to_nat (Z.log2 a))) a [] in
  if z <? 0 then 45%N :: ds else ds.

(** ** Exceptions *)

Inductive exn := AttributeError | ValueError | OverflowError.

Inductive result (A : Type) :=
| Ok (a : A)
| Raise (e : exn).
Arguments Ok {A} a.
Arguments Raise {A} e.

Definition bind {A B} (r : result A) (k : A -> result B) : result B :=
  match r with
  | Ok a => k a
  | Raise e => Raise e
  end.

Notation "x <- r ;; k" := (bind r (fun x => k))
  (at level 61, r at next level, right associativity).

(** ** Floats and decoded values *)

(** A Python float is an IEEE 754 binary64 value. *)
Definition float := spec_float.
Definition prec : Z := 53.
Definition emax : Z := 1024.

(** [float(n)] for an integer: the nearest binary64, ties to even;
    [None] is the [OverflowError] of an integer too large for a float. *)
Definition float_of_Z (z : Z) : option float :=
  match binary_normalize prec emax z 0 false with
  | S754_infinity _ => None
  | f => Some f
  end.

(** [bool(x)] for a float: everything but the two zeros is true. *)
Definition float_truthy (f : float) : bool :=
  match f with
  | S754_zero _ => false
  | _ => true
  end.

(** [int(x)] for a float: truncation towards zero. *)
Definition int_of_float (f : float) : result Z :=
  match f with
  | S754_zero _ => Ok 0
  | S754_infinity _ => Raise OverflowError
  | S754_nan => Raise ValueError
  | S754_finite s m e =>
      let a := Z.shiftl (Zpos m) e in
      Ok (if s then - a else a)
  end.

(** The literal [0.01] of the source. *)
Definition float_0_01 : float := S754_finite false 5764607523034235 (-59).

(** What the request decoder hands on: a decoded JSON document, or the flat
    mapping of the pipe and key=value dialects.  A dict is an association
    list in which the first binding of a key is the live one. *)
Inductive pyval :=
| PNone
| PBool (b : bool)
| PInt (z : Z)
| PFloat (f : float)
| PStr (s : str)
| PList (l : list pyval)
| PDict (d : list (str * pyval)).

(** Truth value of an object, as [or], [not] and [if] test it. *)
Definition truthy (v : pyval) : bool :=
  match v with
  | PNone => false
  | PBool b => b
  | PInt z => negb (z =? 0)
  | PFloat f => float_truthy f
  | PStr s => negb (str_eqb s [])
  | PList l => match l with [] => false | _ => true end
  | PDict d => match d with [] => false | _ => true end
  end.

(** [x or y] *)
Definition py_or (x y : pyval) : pyval := if truthy x then x else y.

Fixpoint assoc (k : str) (d : list (str * pyval)) : option pyval :=
  match d with
  | [] => None
  | (k', v) :: d' => if str_eqb k k' then Some v else assoc k d'
  end.

(** [data.get(k)]: only a dict has the method. *)
Definition dict_get (data : pyval) (k : str) : result pyval :=
  match data with
  | PDict d => Ok (match assoc k d with Some v => v | None => PNone end)
  | _ => Raise AttributeError
  end.

(** [x.strip()]: only text has the method. *)
Definition py_strip (x : pyval) : result str :=
  match x with
  | PStr s => Ok (strip s)
  | _ => Raise AttributeError
  end.

Definition of_opt (o : option str) : pyval :=
  match o with
  | Some s => PStr s
  | None => PNone
  end.

(** ** Civil time *)

(** [datetime.time]: [time(hh, mm)] leaves second and microsecond at 0. *)
Record time := mk_time {
  hour : Z;
  minute : Z;
  second : Z;
  microsecond : Z
}.

Record datetime := mk_datetime {
  year : Z;
  month : Z;
  day : Z;
  tod : time   (* [dt.time()] *)
}.

(** [a <= b] on [datetime.time]: the tuples
    [(hour, minute, second, microsecond)] compared lexicographically. *)
Definition time_leb (a b : time) : bool :=
  if hour a <? hour b then true
  else if hour b <? hour a then false
  else if minute a <? minute b then true
  else if minute b <? minute a then false
  else if second a <? second b then true
  else if second b <? second a then false
  else microsecond a <=? microsecond b.

(** ** What the interpreter supplies *)

Class Runtime := {
  (** the upper-case form of one code point (one to three code points) *)
  upper_cp : codepoint -> list codepoint;
  (** [s.lower()] *)
  str_lower : str -> str;
  (** [float(s)]; [None] is its [ValueError] *)
  float_of_str : str -> option float;
  (** [str(x)] for a float *)
  float_repr : float -> str;
  (** [int(s)]; [None] is its [ValueError] *)
  int_of_str : str -> option Z;
  (** [dt.isoformat()] *)
  isoformat : datetime -> str
}.

(** [s.upper()]: the code points are mapped one by one. *)
Definition str_upper {R : Runtime} (s : str) : str := flat_map upper_cp s.

(** ** Configuration (module level of [app.py], lines 18-33) *)

Record Config := {
  SECRET : str;
  ENFORCE_HOURS : str;
  START_HHMM : str;
  END_HHMM : str;
  TRADE_START : time;
  TRADE_END : time
}.

(** ** The signal and the store *)

(** The dict [build_signal] returns. *)
Record Signal := {
  s_id : str;
  s_ts : str;
  s_action : str;
  s_symbol : str;
  s_lots : float;
  s_sl : option float;
  s_tp : option float;
  s_comment : str;
  s_magic : Z;
  s_raw : pyval
}.

(** A signal dict as an object of the heap: [addr] is its identity.  The
    program never writes to a signal dict after [build_signal] returned it,
    so the contents travel with the identity. *)
Record obj := {
  addr : nat;
  val : Signal
}.

(** [STATE], and the next free address of the allocator. *)
Record State := {
  last : option obj;
  pending : option obj;
  next_addr : nat
}.

Definition initial_state : State :=
  {| last := None; pending := None; next_addr := 0 |}.

(** ** HTTP responses *)

Inductive response :=
| Unauthorized                                   (* 401 *)
| OutsideTradeWindow (time_pr : str) (w_start w_end : str)   (* 403 *)
| MissingAction                                  (* 400 *)
| Stored (id : str) (time_pr : str)              (* 200, /webhook *)
| Latest (sig : option Signal)                   (* 200, /latest *)
| PullJson (sig : option Signal)                 (* 200, /pull as JSON *)
| PullText (body : str)                          (* 200, /pull as text/plain *)
| Health (time_pr : str) (has_secret : bool) (has_pending : bool)
         (latest_id : option str)                (* 200, /health *)
| ServerError (e : exn).                         (* 500: an exception left the handler *)

Definition status_code (r : response) : Z :=
  match r with
  | Unauthorized => 401
  | OutsideTradeWindow _ _ _ => 403
  | MissingAction => 400
  | ServerError _ => 500
  | _ => 200
  end.

(** ** The program *)

Section Program.
Context {R : Runtime}.

(** [os.getenv(name, default).strip()] *)
Definition getenv_stripped (environ : str -> option str) (name : string)
    (default : string) : str :=
  strip (match environ (lit name) with
         | Some v => v
         | None => lit default
         end).

(** [time(h, m)]: a [ValueError] outside 0..23 and 0..59. *)
Definition make_time (h m : Z) : result time :=
  if (0 <=? h) && (h <? 24) && (0 <=? m) && (m <? 60)
  then Ok (mk_time h m 0 0)
  else Raise ValueError.

Definition int_py (s : str) : result Z :=
  match int_of_str s with
  | Some z => Ok z
  | None => Raise ValueError
  end.

(** [parse_hhmm], lines 28-30. *)
Definition parse_hhmm (s : str) : result time :=
  match split_on 58%N s with
  | [hh; mm] =>
      h <- int_py hh ;;
      m <- int_py mm ;;
      make_time h m
  | _ => Raise ValueError
  end.

(** Lines 18-33: the module's globals, read from the environment at import;
    an exception here keeps the service from starting. *)
Definition load_config (environ : str -> option str) : result Config :=
  let secret := getenv_stripped environ "SECRET" "" in
  let enforce := getenv_stripped environ "ENFORCE_HOURS" "1" in
  let start_hhmm := getenv_stripped environ "TRADE_START" "05:00" in
  let end_hhmm := getenv_stripped environ "TRADE_END" "16:00" in
  trade_start <- parse_hhmm start_hhmm ;;
  trade_end <- parse_hhmm end_hhmm ;;
  Ok {| SECRET := secret;
        ENFORCE_HOURS := enforce;
        START_HHMM := start_hhmm;
        END_HHMM := end_hhmm;
        TRADE_START := trade_start;
        TRADE_END := trade_end |}.

Variable cfg : Config.

(** [in_trade_window], lines 46-51. *)
Definition in_trade_window (dt : datetime) : bool :=
  if negb (str_eqb (ENFORCE_HOURS cfg) (lit "1")) then true
  else
    let t := tod dt in
    time_leb (TRADE_START cfg) t && time_leb t (TRADE_END cfg).

(** [check_secret], lines 62-67. *)
Definition check_secret (payload_secret header_secret query_secret : pyval)
    : result bool :=
  if str_eqb (SECRET cfg) [] then Ok false
  else
    candidate <- py_strip (py_or payload_secret
                            (py_or header_secret
                              (py_or query_secret (PStr [])))) ;;
    Ok (str_eqb candidate (SECRET cfg)).

(** [normalize_action], lines 69-75. *)
Definition normalize_action (a : pyval) : result str :=
  s <- py_strip (py_or a (PStr [])) ;;
  let a := str_upper s in
  if str_eqb a (lit "BUY") || str_eqb a (lit "LONG") then Ok (lit "BUY")
  else if str_eqb a (lit "SELL") || str_eqb a (lit "SHORT") then Ok (lit "SELL")
  else Ok [].

(** [safe_float], lines 77-88: every exception of the body is caught and
    turned into [None].  A bool is an [int] for [isinstance].  [str(x)] of a
    list or a dict opens with a bracket, which is neither empty nor [na] and
    which [float] refuses, so line 86 raises and the result is [None]. *)
Definition safe_float (x : pyval) : option float :=
  match x with
  | PNone => None
  | PBool b => float_of_Z (if b then 1 else 0)
  | PInt z => float_of_Z z
  | PFloat f => Some f
  | PStr x =>
      let s := strip x in
      if str_eqb s [] || str_eqb (str_lower s) (lit "na") then None
      else float_of_str s
  | PList _ | PDict _ => None
  end.

(** [f or d] where [f] is the result of [safe_float] and [d] a float. *)
Definition float_or (f : option float) (d : float) : float :=
  match f with
  | Some x => if float_truthy x then x else d
  | None => d
  end.

(** Line 97: [int(safe_float(data.get("magic") or 2026) or 2026)]. *)
Definition magic_of (magic : pyval) : result Z :=
  match safe_float (py_or magic (PInt 2026)) with
  | Some x => if float_truthy x then int_of_float x else Ok 2026
  | None => Ok 2026
  end.

(** [build_signal], lines 90-113.  [now] is what [now_pr()] returns at line
    100 and [uuid8] is [str(uuid.uuid4())[:8]]. *)
Definition build_signal (data : pyval) (now : datetime) (uuid8 : str)
    : result Signal :=
  a1 <- dict_get data (lit "action") ;;
  a2 <- dict_get data (lit "side") ;;
  a3 <- dict_get data (lit "signal") ;;
  action <- normalize_action (py_or a1 (py_or a2 a3)) ;;
  y1 <- dict_get data (lit "symbol") ;;
  y2 <- dict_get data (lit "ticker") ;;
  symbol <- py_strip (py_or y1 (py_or y2 (PStr (lit "XAUUSD")))) ;;
  l1 <- dict_get data (lit "lots") ;;
  l2 <- dict_get data (lit "lot") ;;
  l3 <- dict_get data (lit "qty") ;;
  let lots :=
    float_or (safe_float (py_or l1 (py_or l2 (py_or l3 (PFloat float_0_01)))))
             float_0_01 in
  sl0 <- dict_get data (lit "sl") ;;
  let sl := safe_float sl0 in
  tp0 <- dict_get data (lit "tp") ;;
  let tp := safe_float tp0 in
  c1 <- dict_get data (lit "comment") ;;
  c2 <- dict_get data (lit "cmt") ;;
  comment <- py_strip (py_or c1 (py_or c2 (PStr (lit "TV")))) ;;
  m0 <- dict_get data (lit "magic") ;;
  magic <- magic_of m0 ;;
  i1 <- dict_get data (lit "id") ;;
  i2 <- dict_get data (lit "signal_id") ;;
  sig_id <- py_strip (py_or i1 (py_or i2 (PStr uuid8))) ;;
  let ts := isoformat now in
  Ok {| s_id := sig_id;
        s_ts := ts;
        s_action := action;
        s_symbol := symbol;
        s_lots := lots;
        s_sl := sl;
        s_tp := tp;
        s_comment := comment;
        s_magic := magic;
        s_raw := data |}.

End Program.

(** ** The HTTP handlers *)

Section Handlers.
Context {R : Runtime}.
Variable cfg : Config.

(** Lines 236-240: the line a pull answers with when [format=txt]. *)
Definition opt_float_text (f : option float) : str :=
  match f with
  | None => []
  | Some x => float_repr x
  end.

Definition line_text (sig : Signal) : str :=
  let sl := opt_float_text (s_sl sig) in
  let tp := opt_float_text (s_tp sig) in
  let comment := replace_char pipe 32%N (s_comment sig) in
  join [pipe]
    [lit "OK"; s_id sig; s_action sig; s_symbol sig; float_repr (s_lots sig);
     sl; tp; s_ts sig; str_of_Z (s_magic sig); comment].

(** Lines 176-180: the secret of a webhook call is looked up in the body
    under [secret], [key] and [token], then in the [X-Secret] header, then in
    the [secret] query argument. *)
Definition webhook_auth (data : pyval) (header_secret query_secret : option str)
    : result bool :=
  p1 <- dict_get data (lit "secret") ;;
  p2 <- dict_get data (lit "key") ;;
  p3 <- dict_get data (lit "token") ;;
  check_secret cfg (py_or p1 (py_or p2 p3))
               (of_opt header_secret) (of_opt query_secret).

(** [POST /webhook], lines 173-202.  [data] is what [parse_body_to_dict()]
    returned at line 174; [now] is the clock read at line 183, [now_sig] and
    [uuid8] are handed to [build_signal].  [tg_send] (line 200) touches
    neither the store nor the response. *)
Definition webhook (data : pyval) (header_secret query_secret : option str)
    (now now_sig : datetime) (uuid8 : str) (st : State) : response * State :=
  match webhook_auth data header_secret query_secret with
  | Raise e => (ServerError e, st)
  | Ok false => (Unauthorized, st)
  | Ok true =>
      if negb (in_trade_window cfg now) then
        (OutsideTradeWindow (isoformat now) (START_HHMM cfg) (END_HHMM cfg), st)
      else
        match build_signal data now_sig uuid8 with
        | Raise e => (ServerError e, st)
        | Ok sig =>
            if str_eqb (s_action sig) [] then (MissingAction, st)
            else
              let o := {| addr := next_addr st; val := sig |} in
              (Stored (s_id sig) (s_ts sig),
               {| last := Some o;
                  pending := Some o;
                  next_addr := S (next_addr st) |})
        end
  end.

(** [GET /latest], lines 205-211. *)
Definition latest (header_secret query_secret : option str) (st : State)
    : response * State :=
  match check_secret cfg PNone (of_opt header_secret) (of_opt query_secret) with
  | Raise e => (ServerError e, st)
  | Ok false => (Unauthorized, st)
  | Ok true => (Latest (option_map val (last st)), st)
  end.

(** [(request.args.get("format") or "json").lower()], line 224. *)
Definition pull_format (format_arg : option str) : str :=
  str_lower (match format_arg with
             | Some (c :: s) => c :: s
             | _ => lit "json"
             end).

(** What a pull answers when nothing is pending, lines 227-230. *)
Definition pull_absent (fmt : str) : response :=
  if str_eqb fmt (lit "txt") then PullText (lit "NONE") else PullJson None.

(** What a pull answers with the signal it took, lines 235-243. *)
Definition pull_present (fmt : str) (sig : Signal) : response :=
  if str_eqb fmt (lit "txt") then PullText (line_text sig)
  else PullJson (Some sig).

Definition clear_pending (st : State) : State :=
  {| last := last st; pending := None; next_addr := next_addr st |}.

(** [GET /pull], lines 214-243. *)
Definition pull (header_secret query_secret format_arg : option str)
    (st : State) : response * State :=
  match check_secret cfg PNone (of_opt header_secret) (of_opt query_secret) with
  | Raise e => (ServerError e, st)
  | Ok false => (Unauthorized, st)
  | Ok true =>
      let fmt := pull_format format_arg in
      match pending st with
      | None => (pull_absent fmt, st)
      | Some sig => (pull_present fmt (val sig), clear_pending st)
      end
  end.

(** [GET /health], lines 163-170. *)
Definition health (now : datetime) (st : State) : response * State :=
  (Health (isoformat now)
          (negb (str_eqb (SECRET cfg) []))
          (match pending st with Some _ => true | None => false end)
          (option_map (fun o => s_id (val o)) (last st)),
   st).

(** *** Sequences of requests *)

Inductive request :=
| ReqWebhook (data : pyval) (header_secret query_secret : option str)
             (now now_sig : datetime) (uuid8 : str)
| ReqLatest (header_secret query_secret : option str)
| ReqPull (header_secret query_secret format_arg : option str)
| ReqHealth (now : datetime).

Definition handle (r : request) (st : State) : response * State :=
  match r with
  | ReqWebhook data h q now now_sig uuid8 => webhook data h q now now_sig uuid8 st
  | ReqLatest h q => latest h q st
  | ReqPull h q f => pull h q f st
  | ReqHealth now => health now st
  end.

(** Requests served one after the other. *)
Fixpoint serve (rs : list request) (st : State) : list response * State :=
  match rs with
  | [] => ([], st)
  | r :: rs' =>
      let (a, st1) := handle r st in
      let (answers, st2) := serve rs' st1 in
      (a :: answers, st2)
  end.

(** The states the service can be in: the store starts empty (lines 38-41)
    and changes only as the handlers change it. *)
Inductive reachable : State -> Prop :=
| reach_init : reachable initial_state
| reach_step r st : reachable st -> reachable (snd (handle r st)).

(** *** Overlapping pulls

    Flask serves requests on several threads, and [pull] takes no lock.  A
    pull touches the shared [STATE] twice: it reads [STATE["pending"]] at
    line 226 and, when it found a signal, writes [None] to it at line 233.
    A thread is modelled by where it stands between these two accesses; a
    step of the system is one step of one thread. *)

Inductive pull_thread :=
| Arrived (header_secret query_secret format_arg : option str)
| HoldsSignal (fmt : str) (sig : obj)      (* line 226 done, line 233 not yet *)
| Returned (r : response).

Definition thread_step (t : pull_thread) (st : State) : pull_thread * State :=
  match t with
  | Arrived h q f =>
      match check_secret cfg PNone (of_opt h) (of_opt q) with
      | Raise e => (Returned (ServerError e), st)
      | Ok false => (Returned Unauthorized, st)
      | Ok true =>
          let fmt := pull_format f in
          match pending st with
          | None => (Returned (pull_absent fmt), st)
          | Some sig => (HoldsSignal fmt sig, st)
          end
      end
  | HoldsSignal fmt sig => (Returned (pull_present fmt (val sig)), clear_pending st)
  | Returned r => (Returned r, st)
  end.

(** Thread [i] of the pool takes a step. *)
Fixpoint pool_step (i : nat) (pool : list pull_thread) (st : State)
    : list pull_thread * State :=
  match pool, i with
  | [], _ => ([], st)
  | t :: ts, O => let (t', st') := thread_step t st in (t' :: ts, st')
  | t :: ts, S j => let (ts', st') := pool_step j ts st in (t :: ts', st')
  end.

(** A schedule names the thread that runs at each step. *)
Fixpoint run_schedule (sched : list nat) (pool : list pull_thread) (st : State)
    : list pull_thread * State :=
  match sched with
  | [] => (pool, st)
  | i :: sched' => let (pool', st') := pool_step i pool st in
                   run_schedule sched' pool' st'
  end.

End Handlers.

(** ** A runtime to evaluate with

    [ascii_runtime] computes what CPython 3 computes on ASCII text: case
    mapping of the letters a-z, [int] and [float] of a decimal literal (with
    correct rounding to binary64), the shortest [repr] of a float that reads
    back as the same float, and [isoformat] at the fixed offset of
    America/Puerto_Rico (UTC-4, no daylight saving).  It serves the concrete
    runs below; no theorem depends on it. *)

Module AsciiRuntime.

Definition in_range (lo hi : Z) (c : codepoint) : bool :=
  (lo <=? Z.of_N c) && (Z.of_N c <=? hi).

Definition upper_cp (c : codepoint) : codepoint :=
  if in_range 97 122 c then (c - 32)%N else c.

Definition lower_cp (c : codepoint) : codepoint :=
  if in_range 65 90 c then (c + 32)%N else c.

Definition is_digit (c : codepoint) : bool := in_range 48 57 c.

Definition digit_val (c : codepoint) : Z := Z.of_N c - 48.

(** A run of digits in which single underscores may separate digits; the
    text that follows the run is returned with it. *)
Fixpoint scan_digits (s : str) : list Z * str :=
  match s with
  | c :: s' =>
      if is_digit c then
        let (ds, r) := scan_digits s' in (digit_val c :: ds, r)
      else if N.eqb c 95 then
        match s' with
        | d :: _ => if is_digit d then scan_digits s' else ([], s)
        | [] => ([], s)
        end
      else ([], s)
  | [] => ([], [])
  end.

(** The run must open with a digit. *)
Definition digit_run (s : str) : option (list Z * str) :=
  match s with
  | c :: _ => if is_digit c then Some (scan_digits s) else None
  | [] => None
  end.

Definition Z_of_digits (ds : list Z) : Z :=
  fold_left (fun acc d => 10 * acc + d) ds 0.

(** An optional sign: [true] for minus. *)
Definition scan_sign (s : str) : bool * str :=
  match s with
  | 43%N :: s' => (false, s')
  | 45%N :: s' => (true, s')
  | _ => (false, s)
  end.

(** [int(s)] *)
Definition int_of_ascii (s : str) : option Z :=
  let (neg, s1) := scan_sign (strip s) in
  match digit_run s1 with
  | Some (ds, []) => Some (if neg then - Z_of_digits ds else Z_of_digits ds)
  | _ => None
  end.

(** The binary64 nearest to [(-1)^neg * m * 10^e], ties to even. *)
Definition float_of_decimal (neg : bool) (m e : Z) : float :=
  let sign z := if neg then - z else z in
  if m =? 0 then S754_zero neg
  else if 0 <=? e then binary_normalize prec emax (sign (m * 10 ^ e)) 0 neg
  else
    let d := 10 ^ (- e) in
    let s := Z.max 0 (Z.log2 d + 58 - Z.log2 m) in
    let n := Z.shiftl m s in
    let q := n / d in
    let sticky := if n mod d =? 0 then 0 else 1 in
    binary_normalize prec emax (sign (2 * q + sticky)) (- (s + 1)) neg.

(** The exponent part of a literal: nothing, or [e] and a signed run. *)
Definition scan_exponent (s : str) : option Z :=
  match s with
  | [] => Some 0
  | c :: s' =>
      if N.eqb (lower_cp c) 101 then
        let (neg, s1) := scan_sign s' in
        match digit_run s1 with
        | Some (ds, []) => Some (if neg then - Z_of_digits ds else Z_of_digits ds)
        | _ => None
        end
      else None
  end.

(** [float(s)] *)
Definition float_of_ascii (s : str) : option float :=
  let (neg, s1) := scan_sign (strip s) in
  let word := map lower_cp s1 in
  if str_eqb word (lit "inf") || str_eqb word (lit "infinity")
  then Some (S754_infinity neg)
  else if str_eqb word (lit "nan") then Some S754_nan
  else
    let (ip, s2) := match digit_run s1 with
                    | Some r => r
                    | None => ([], s1)
                    end in
    let '(fp, s3) := match s2 with
                     | 46%N :: s2' =>
                         match digit_run s2' with
                         | Some r => r
                         | None => ([], s2')
                         end
                     | _ => ([], s2)
                     end in
    match ip ++ fp with
    | [] => None
    | ds =>
        match scan_exponent s3 with
        | Some e =>
            Some (float_of_decimal neg (Z_of_digits ds)
                                   (e - Z.of_nat (List.length fp)))
        | None => None
        end
    end.

(** *** The shortest repr *)

(** [10^k <= m * 2^e], for [m > 0]. *)
Definition pow10_le (k : Z) (m e : Z) : bool :=
  let lhs := if 0 <=? k then 10 ^ k else 1 in
  let lden := if 0 <=? k then 1 else 10 ^ (- k) in
  let rhs := if 0 <=? e then m * 2 ^ e else m in
  let rden := if 0 <=? e then 1 else 2 ^ (- e) in
  lhs * rden <=? rhs * lden.

(** The decimal exponent of [m * 2^e]: the [k] with
    [10^k <= m * 2^e < 10^(k+1)], searched upwards from an underestimate. *)
Fixpoint find_exp10 (fuel : nat) (k : Z) (m e : Z) : Z :=
  match fuel with
  | O => k
  | S fuel' => if pow10_le (k + 1) m e then find_exp10 fuel' (k + 1) m e else k
  end.

Definition exp10 (m e : Z) : Z :=
  let bits := Z.log2 m + e in
  let k0 := (bits * 30103) / 100000 - 2 in
  find_exp10 6 k0 m e.

(** [floor (m * 2^e / 10^p)] and whether the division is exact. *)
Definition scaled_floor (m e p : Z) : Z * bool :=
  let num := (if 0 <=? e then m * 2 ^ e else m) * (if 0 <=? p then 1 else 10 ^ (- p)) in
  let den := (if 0 <=? e then 1 else 2 ^ (- e)) * (if 0 <=? p then 10 ^ p else 1) in
  (num / den, num mod den =? 0).

(** Twice the distance from [d * 10^p] to [m * 2^e], over a common
    denominator: enough to compare two candidates. *)
Definition distance (m e d p : Z) : Z :=
  let num := (if 0 <=? e then m * 2 ^ e else m) * (if 0 <=? p then 1 else 10 ^ (- p)) in
  let den := (if 0 <=? e then 1 else 2 ^ (- e)) * (if 0 <=? p then 10 ^ p else 1) in
  Z.abs (d * den - num).

Definition reads_back (m : positive) (e d p : Z) : bool :=
  match float_of_decimal false d p with
  | S754_finite _ m' e' => Pos.eqb m m' && (e =? e')
  | _ => false
  end.

(** The shortest digit string [d] and exponent [p] with [d * 10^p] reading
    back as [m * 2^e]; of two candidates of one length, the nearer one. *)
Fixpoint shortest (count : nat) (n : Z) (m : positive) (e k : Z) : Z * Z :=
  let p := k - n + 1 in
  let '(lo, exact) := scaled_floor (Zpos m) e p in
  let hi := if exact then lo else lo + 1 in
  let ok_lo := reads_back m e lo p in
  let ok_hi := reads_back m e hi p in
  let pick :=
    if ok_lo && ok_hi then
      Some (if distance (Zpos m) e lo p <=? distance (Zpos m) e hi p then lo else hi)
    else if ok_lo then Some lo
    else if ok_hi then Some hi
    else None in
  match pick, count with
  | Some d, _ => (d, p)
  | None, O => (lo, p)
  | None, S count' => shortest count' (n + 1) m e k
  end.

Fixpoint strip_zeros (fuel : nat) (d p : Z) : Z * Z :=
  match fuel with
  | O => (d, p)
  | S fuel' => if (d mod 10 =? 0) && negb (d =? 0)
               then strip_zeros fuel' (d / 10) (p + 1) else (d, p)
  end.

Definition zeros (n : Z) : str := repeat 48%N (Z.to_nat n).

(** At least two digits, as the exponent of a repr has. *)
Definition two_digits (z : Z) : str :=
  if z <? 10 then 48%N :: str_of_Z z else str_of_Z z.

(** [repr(x)] of a positive finite float. *)
Definition repr_finite (m : positive) (e : Z) : str :=
  let k := exp10 (Zpos m) e in
  let '(d0, p0) := shortest 17 1 m e k in
  let '(d, p) := strip_zeros 20 d0 p0 in
  let ds := str_of_Z d in
  let n := Z.of_nat (List.length ds) in
  let decpt := n + p in
  if (decpt <=? -4) || (16 <? decpt) then
    let x := decpt - 1 in
    firstn 1 ds
      ++ (if 1 <? n then 46%N :: skipn 1 ds else [])
      ++ [101%N; if x <? 0 then 45%N else 43%N]
      ++ two_digits (Z.abs x)
  else if decpt <=? 0 then lit "0." ++ zeros (- decpt) ++ ds
  else if n <=? decpt then ds ++ zeros (decpt - n) ++ lit ".0"
  else firstn (Z.to_nat decpt) ds ++ 46%N :: skipn (Z.to_nat decpt) ds.

Definition repr_float (f : float) : str :=
  match f with
  | S754_nan => lit "nan"
  | S754_infinity s => if s then lit "-inf" else lit "inf"
  | S754_zero s => if s then lit "-0.0" else lit "0.0"
  | S754_finite s m e =>
      if s then 45%N :: repr_finite m e else repr_finite m e
  end.

(** *** isoformat *)

Definition padded (width : nat) (z : Z) : str :=
  let ds := str_of_Z z in
  repeat 48%N (width - List.length ds) ++ ds.

Definition iso_puerto_rico (dt : datetime) : str :=
  let t := tod dt in
  padded 4 (year dt) ++ lit "-" ++ padded 2 (month dt) ++ lit "-"
    ++ padded 2 (day dt) ++ lit "T"
    ++ padded 2 (hour t) ++ lit ":" ++ padded 2 (minute t) ++ lit ":"
    ++ padded 2 (second t)
    ++ (if microsecond t =? 0 then [] else 46%N :: padded 6 (microsecond t))
    ++ lit "-04:00".

End AsciiRuntime.

#[export] Instance ascii_runtime : Runtime := {|
  upper_cp := fun c => [AsciiRuntime.upper_cp c];
  str_lower := map AsciiRuntime.lower_cp;
  float_of_str := AsciiRuntime.float_of_ascii;
  float_repr := AsciiRuntime.repr_float;
  int_of_str := AsciiRuntime.int_of_ascii;
  isoformat := AsciiRuntime.iso_puerto_rico
|}.

(** ** Sample deployments and requests *)

Module Sample.

(** An environment that sets the four variables the module reads. *)
Definition environ (secret enforce start_ end_ : string) (name : str)
    : option str :=
  if str_eqb name (lit "SECRET") then Some (lit secret)
  else if str_eqb name (lit "ENFORCE_HOURS") then Some (lit enforce)
  else if str_eqb name (lit "TRADE_START") then Some (lit start_)
  else if str_eqb name (lit "TRADE_END") then Some (lit end_)
  else None.

(** Secret [abc123], window 09:00-09:01, enforced. *)
Definition narrow_cfg : Config :=
  {| SECRET := lit "abc123";
     ENFORCE_HOURS := lit "1";
     START_HHMM := lit "09:00";
     END_HHMM := lit "09:01";
     TRADE_START := mk_time 9 0 0 0;
     TRADE_END := mk_time 9 1 0 0 |}.

(** Secret [abc123], the default window 05:00-16:00, not enforced. *)
Definition open_cfg : Config :=
  {| SECRET := lit "abc123";
     ENFORCE_HOURS := lit "0";
     START_HHMM := lit "05:00";
     END_HHMM := lit "16:00";
     TRADE_START := mk_time 5 0 0 0;
     TRADE_END := mk_time 16 0 0 0 |}.

(** No secret configured. *)
Definition unset_cfg : Config :=
  {| SECRET := [];
     ENFORCE_HOURS := lit "1";
     START_HHMM := lit "05:00";
     END_HHMM := lit "16:00";
     TRADE_START := mk_time 5 0 0 0;
     TRADE_END := mk_time 16 0 0 0 |}.

Definition ten_oclock : datetime := mk_datetime 2026 3 7 (mk_time 10 0 0 0).

Definition field (k : string) (v : string) : str * pyval :=
  (lit k, PStr (lit v)).

(** [{"secret":"abc123","action":"buy","symbol":"eurusd","lots":"0.1"}] *)
Definition buy_payload : pyval :=
  PDict [field "secret" "abc123"; field "action" "buy";
         field "symbol" "eurusd"; field "lots" "0.1"].

(** [{"secret":"abc123","action":"buy","id":"a|b"}] *)
Definition piped_id_payload : pyval :=
  PDict [field "secret" "abc123"; field "action" "buy"; field "id" "a|b"].

(** [{"secret":"abc123","action":"sell","magic":"0"}] *)
Definition zero_magic_payload : pyval :=
  PDict [field "secret" "abc123"; field "action" "sell"; field "magic" "0"].

(** [{"secret":"abc123","action":"sell","magic":"12.7"}] *)
Definition fraction_magic_payload : pyval :=
  PDict [field "secret" "abc123"; field "action" "sell"; field "magic" "12.7"].

Definition uuid8 : str := lit "1b9d6bcd".

Definition nine_oh_one : datetime := mk_datetime 2026 3 7 (mk_time 9 1 0 0).

(** [?secret=abc123] and [?format=txt] *)
Definition good_secret : option str := Some (lit "abc123").
Definition txt : option str := Some (lit "txt").

(** The store after [buy_payload] was accepted by the open deployment. *)
Definition after_buy : State :=
  snd (webhook open_cfg buy_payload None None ten_oclock ten_oclock uuid8
               initial_state).

(** The store after the signal was then pulled. *)
Definition after_pull : State :=
  snd (pull open_cfg None good_secret txt after_buy).

(** The signal a payload is built into at ten o'clock (a blank one if
    [build_signal] raises). *)
Definition built (data : pyval) : Signal :=
  match build_signal data ten_oclock uuid8 with
  | Ok sig => sig
  | Raise _ =>
      {| s_id := []; s_ts := []; s_action := []; s_symbol := [];
         s_lots := float_0_01; s_sl := None; s_tp := None; s_comment := [];
         s_magic := 0; s_raw := PNone |}
  end.

Definition piped_signal : Signal := built piped_id_payload.

(** [SELL|XAUUSD|0.02|1900|1950] as the pipe dialect decodes it, with the
    secret sent in the header. *)
Definition pipe_dialect_payload : pyval :=
  PDict [field "action" "SELL"; field "symbol" "XAUUSD"; field "lots" "0.02";
         field "sl" "1900"; field "tp" "1950"].

Definition sell_signal : Signal := built pipe_dialect_payload.

End Sample.

(** ** The vocabulary of the specification *)

(** "The first non-empty candidate among body, header, query". *)
Fixpoint first_nonempty (candidates : list (option str)) : option str :=
  match candidates with
  | [] => None
  | Some (c :: s) :: _ => Some (c :: s)
  | _ :: rest => first_nonempty rest
  end.

(** A time of day as [datetime.time] admits it. *)
Definition valid_time (t : time) : Prop :=
  0 <= hour t < 24 /\ 0 <= minute t < 60 /\ 0 <= second t < 60
  /\ 0 <= microsecond t < 1000000.

(** A time of day as the microseconds elapsed since midnight. *)
Definition micros_of_day (t : time) : Z :=
  ((hour t * 60 + minute t) * 60 + second t) * 1000000 + microsecond t.

(** The configuration with another window. *)
Definition with_window (cfg : Config) (start_ end_ : time) : Config :=
  {| SECRET := SECRET cfg;
     ENFORCE_HOURS := ENFORCE_HOURS cfg;
     START_HHMM := START_HHMM cfg;
     END_HHMM := END_HHMM cfg;
     TRADE_START := start_;
     TRADE_END := end_ |}.

(** The text of a value that is a string or absent. *)
Definition text_of (a : option str) : str :=
  match a with
  | Some s => s
  | None => []
  end.

(** The store invariant: nothing is pending, or the pending signal is the
    very object held as the last one. *)
Definition slots_agree (st : State) : Prop :=
  pending st = None \/ pending st = last st.

(** No pipe occurs in a text. *)
Definition pipe_free (s : str) : Prop := ~ In pipe s.

(** ** The request decoder *)

(** [json.loads]; [None] is its exception.  Like the functions of
    [Runtime], it is the interpreter's and is left open. *)
Class JsonDecoder := {
  json_loads : str -> option pyval
}.

(** [d[k] = v]: a key that is present keeps its place and takes the new
    value, a new key goes last. *)
Fixpoint dict_set (k : str) (v : pyval) (d : list (str * pyval))
    : list (str * pyval) :=
  match d with
  | [] => [(k, v)]
  | (k', v') :: d' =>
      if str_eqb k k' then (k, v) :: d' else (k', v') :: dict_set k v d'
  end.

Fixpoint is_prefix (pat s : str) : bool :=
  match pat, s with
  | [], _ => true
  | p :: pat', c :: s' => N.eqb p c && is_prefix pat' s'
  | _ :: _, [] => false
  end.

(** [pat in s] *)
Fixpoint contains (pat s : str) : bool :=
  match s with
  | [] => is_prefix pat []
  | _ :: s' => is_prefix pat s || contains pat s'
  end.

(** [s.startswith(c)] and [s.endswith(c)] for one code point. *)
Definition startswith (c : codepoint) (s : str) : bool :=
  match s with
  | x :: _ => N.eqb x c
  | [] => false
  end.

Definition endswith (c : codepoint) (s : str) : bool := startswith c (rev s).

(** [s.split(sep, 1)] when [sep] occurs in [s]: the text before the first
    [sep] and the text after it; [None] when [sep] does not occur. *)
Fixpoint split_once (sep : codepoint) (s : str) : option (str * str) :=
  match s with
  | [] => None
  | c :: s' =>
      if N.eqb c sep then Some ([], s')
      else match split_once sep s' with
           | Some (k, v) => Some (c :: k, v)
           | None => None
           end
  end.

(** The line boundaries of [str.splitlines]. *)
Definition is_linebreak (c : codepoint) : bool :=
  let z := Z.of_N c in
  ((10 <=? z) && (z <=? 13)) || ((28 <=? z) && (z <=? 30))
  || (z =? 133) || (z =? 8232) || (z =? 8233).

(** [s.splitlines()]: [cur] is the line being read, backwards; a carriage
    return and the line feed after it are one boundary. *)
Fixpoint splitlines_from (cur : str) (s : str) : list str :=
  match s with
  | [] => match cur with [] => [] | _ => [rev cur] end
  | c :: s' =>
      if N.eqb c 13 then
        match s' with
        | 10%N :: s'' => rev cur :: splitlines_from [] s''
        | _ => rev cur :: splitlines_from [] s'
        end
      else if is_linebreak c then rev cur :: splitlines_from [] s'
      else splitlines_from (c :: cur) s'
  end.

Definition splitlines (s : str) : list str := splitlines_from [] s.

Section Decoder.
Context {R : Runtime} {J : JsonDecoder}.

(** Lines 138-142: [if len(parts) >= i + 1: d[key] = parts[i]]. *)
Definition set_if_present (i : nat) (key : string) (parts : list str)
    (d : list (str * pyval)) : list (str * pyval) :=
  match nth_error parts i with
  | Some p => dict_set (lit key) (PStr p) d
  | None => d
  end.

(** Lines 136-143: the pipe dialect, [BUY|XAUUSD|0.01|SL|TP]. *)
Definition pipe_dict (body : str) : list (str * pyval) :=
  let parts := map strip (split_on pipe body) in
  set_if_present 4 "tp" parts
    (set_if_present 3 "sl" parts
      (set_if_present 2 "lots" parts
        (set_if_present 1 "symbol" parts
          (set_if_present 0 "action" parts [])))).

(** Lines 148-150: one line of the key=value dialect. *)
Definition kv_line (d : list (str * pyval)) (line : str) : list (str * pyval) :=
  match split_once 61%N line with
  | Some (k, v) => dict_set (strip k) (PStr (strip v)) d
  | None => d
  end.

(** Lines 146-151. *)
Definition kv_dict (body : str) : list (str * pyval) :=
  fold_left kv_line (splitlines body) [].

(** Line 135: the test that selects the pipe dialect. *)
Definition looks_piped (body : str) : bool :=
  contains [pipe] body
  && (contains (lit "BUY") (str_upper body) || contains (lit "SELL") (str_upper body)).

(** [parse_body_to_dict], lines 115-151.  [is_json] is [request.is_json];
    [body_text] is the body of the request, which [get_json] and [get_data]
    both read. *)
Definition parse_body_to_dict (is_json : bool) (body_text : str) : pyval :=
  if is_json then
    match json_loads body_text with
    | Some v => py_or v (PDict [])
    | None => PDict []
    end
  else
    let body := strip body_text in
    if str_eqb body [] then PDict []
    else
      match (if startswith 123%N body && endswith 125%N body
             then json_loads body else None) with
      | Some v => v
      | None =>
          if looks_piped body then PDict (pipe_dict body)
          else PDict (kv_dict body)
      end.

(** [POST /webhook] from the request as it arrives: line 174 decodes the
    body and the rest of the handler works on the mapping. *)
Definition webhook_request (cfg : Config) (is_json : bool) (body_text : str)
    (header_secret query_secret : option str) (now now_sig : datetime)
    (uuid8 : str) (st : State) : response * State :=
  webhook cfg (parse_body_to_dict is_json body_text) header_secret query_secret
          now now_sig uuid8 st.

End Decoder.

(** ** A JSON decoder to evaluate with

    [plain_json] reads JSON as [json.loads] does: objects (a repeated key
    keeps its first place and its last value), arrays, strings with their
    escapes, integers, floats (correctly rounded), [true], [false], [null],
    and the [NaN] and [Infinity] that Python admits.  It serves the concrete
    runs; no theorem depends on it. *)

Module PlainJson.

Definition is_ws (c : codepoint) : bool :=
  N.eqb c 32 || N.eqb c 9 || N.eqb c 10 || N.eqb c 13.

Fixpoint skip_ws (s : str) : str :=
  match s with
  | c :: s' => if is_ws c then skip_ws s' else s
  | [] => []
  end.

Definition hex_val (c : codepoint) : option N :=
  if AsciiRuntime.in_range 48 57 c then Some (c - 48)%N
  else if AsciiRuntime.in_range 97 102 c then Some (c - 87)%N
  else if AsciiRuntime.in_range 65 70 c then Some (c - 55)%N
  else None.

(** Four hexadecimal digits. *)
Definition hex4 (a b c d : codepoint) : option N :=
  match hex_val a, hex_val b, hex_val c, hex_val d with
  | Some x, Some y, Some z, Some w => Some (((x * 16 + y) * 16 + z) * 16 + w)%N
  | _, _, _, _ => None
  end.

Definition simple_escape (c : codepoint) : option codepoint :=
  if N.eqb c 34 then Some 34%N
  else if N.eqb c 92 then Some 92%N
  else if N.eqb c 47 then Some 47%N
  else if N.eqb c 98 then Some 8%N
  else if N.eqb c 102 then Some 12%N
  else if N.eqb c 110 then Some 10%N
  else if N.eqb c 114 then Some 13%N
  else if N.eqb c 116 then Some 9%N
  else None.

(** The text of a string after its opening quote, and what follows the
    closing quote.  A high surrogate followed by a low one is one code
    point. *)
Fixpoint scan_string (acc : str) (s : str) : option (str * str) :=
  match s with
  | [] => None
  | 34%N :: r => Some (rev acc, r)
  | 92%N :: 117%N :: a :: b :: c :: d :: r =>
      match hex4 a b c d with
      | None => None
      | Some hi =>
          match r with
          | 92%N :: 117%N :: a' :: b' :: c' :: d' :: r' =>
              match hex4 a' b' c' d' with
              | Some lo =>
                  if (55296 <=? hi)%N && (hi <? 56320)%N
                     && (56320 <=? lo)%N && (lo <? 57344)%N
                  then scan_string
                         ((65536 + (hi - 55296) * 1024 + (lo - 56320))%N :: acc) r'
                  else scan_string (hi :: acc) r
              | None => scan_string (hi :: acc) r
              end
          | _ => scan_string (hi :: acc) r
          end
      end
  | 92%N :: e :: r =>
      match simple_escape e with
      | Some c => scan_string (c :: acc) r
      | None => None
      end
  | c :: r => if (c <? 32)%N then None else scan_string (c :: acc) r
  end.

Fixpoint take_digits (s : str) : list Z * str :=
  match s with
  | c :: s' =>
      if AsciiRuntime.is_digit c then
        let (ds, r) := take_digits s' in (AsciiRuntime.digit_val c :: ds, r)
      else ([], s)
  | [] => ([], [])
  end.

(** A number: an optional minus, then 0 or a run of digits that does not
    open with 0, then an optional fraction (a point and digits), then an
    optional exponent (e or E, an optional sign, digits).  It is an integer
    when it has neither fraction nor exponent, else a float. *)
Definition scan_number (s : str) : option (pyval * str) :=
  let (neg, s1) := match s with
                   | 45%N :: r => (true, r)
                   | _ => (false, s)
                   end in
  let (ip, s2) := match s1 with
                  | 48%N :: r => ([0], r)
                  | _ => take_digits s1
                  end in
  match ip with
  | [] => None
  | _ =>
      let '(fp, s3) := match s2 with
                       | 46%N :: r =>
                           match take_digits r with
                           | ([], _) => ([], s2)
                           | (ds, r') => (ds, r')
                           end
                       | _ => ([], s2)
                       end in
      let '(ex, s4) := match s3 with
                       | c :: r =>
                           if N.eqb c 101 || N.eqb c 69 then
                             let (eneg, r1) := AsciiRuntime.scan_sign r in
                             match take_digits r1 with
                             | ([], _) => (None, s3)
                             | (ds, r') =>
                                 (Some (if eneg then - AsciiRuntime.Z_of_digits ds
                                        else AsciiRuntime.Z_of_digits ds), r')
                             end
                           else (None, s3)
                       | [] => (None, s3)
                       end in
      match fp, ex with
      | [], None =>
          let n := AsciiRuntime.Z_of_digits ip in
          Some (PInt (if neg then - n else n), s4)
      | _, _ =>
          let e := match ex with Some e => e | None => 0 end in
          Some (PFloat (AsciiRuntime.float_of_decimal neg
                          (AsciiRuntime.Z_of_digits (ip ++ fp))
                          (e - Z.of_nat (List.length fp))), s4)
      end
  end.

Definition strip_prefix (pat : string) (s : str) : option str :=
  if is_prefix (lit pat) s then Some (skipn (String.length pat) s) else None.

Definition scan_scalar (s : str) : option (pyval * str) :=
  match strip_prefix "null" s with
  | Some r => Some (PNone, r)
  | None =>
  match strip_prefix "true" s with
  | Some r => Some (PBool true, r)
  | None =>
  match strip_prefix "false" s with
  | Some r => Some (PBool false, r)
  | None =>
  match strip_prefix "NaN" s with
  | Some r => Some (PFloat S754_nan, r)
  | None =>
  match strip_prefix "Infinity" s with
  | Some r => Some (PFloat (S754_infinity false), r)
  | None =>
  match strip_prefix "-Infinity" s with
  | Some r => Some (PFloat (S754_infinity true), r)
  | None => scan_number s
  end end end end end end.

Fixpoint parse_value (fuel : nat) (s : str) : option (pyval * str) :=
  match fuel with
  | O => None
  | S f =>
      match skip_ws s with
      | 123%N :: r =>
          match skip_ws r with
          | 125%N :: r' => Some (PDict [], r')
          | r' => parse_members f r' []
          end
      | 91%N :: r =>
          match skip_ws r with
          | 93%N :: r' => Some (PList [], r')
          | r' => parse_elements f r' []
          end
      | 34%N :: r =>
          match scan_string [] r with
          | Some (t, r') => Some (PStr t, r')
          | None => None
          end
      | s' => scan_scalar s'
      end
  end
with parse_elements (fuel : nat) (s : str) (acc : list pyval)
    : option (pyval * str) :=
  match fuel with
  | O => None
  | S f =>
      match parse_value f s with
      | Some (v, r) =>
          match skip_ws r with
          | 44%N :: r' => parse_elements f r' (v :: acc)
          | 93%N :: r' => Some (PList (rev (v :: acc)), r')
          | _ => None
          end
      | None => None
      end
  end
with parse_members (fuel : nat) (s : str) (acc : list (str * pyval))
    : option (pyval * str) :=
  match fuel with
  | O => None
  | S f =>
      match skip_ws s with
      | 34%N :: r =>
          match scan_string [] r with
          | Some (k, r1) =>
              match skip_ws r1 with
              | 58%N :: r2 =>
                  match parse_value f r2 with
                  | Some (v, r3) =>
                      match skip_ws r3 with
                      | 44%N :: r4 => parse_members f r4 (dict_set k v acc)
                      | 125%N :: r4 => Some (PDict (dict_set k v acc), r4)
                      | _ => None
                      end
                  | None => None
                  end
              | _ => None
              end
          | None => None
          end
      | _ => None
      end
  end.

Definition loads (s : str) : option pyval :=
  match parse_value (S (2 * List.length s)) s with
  | Some (v, r) => match skip_ws r with [] => Some v | _ => None end
  | None => None
  end.

End PlainJson.

#[export] Instance plain_json : JsonDecoder := {|
  json_loads := PlainJson.loads
|}.

(** ** More vocabulary *)

(** The value [data.get(k)] returns for a dict with the bindings [d]. *)
Definition field_of (d : list (str * pyval)) (k : string) : pyval :=
  match assoc (lit k) d with
  | Some v => v
  | None => PNone
  end.

(** A text made of whitespace only (the empty text included). *)
Definition blank (s : str) : bool := forallb isspace s.

Definition is_text (v : pyval) : bool :=
  match v with
  | PStr _ => true
  | _ => false
  end.

Definition is_dict (v : pyval) : bool :=
  match v with
  | PDict _ => true
  | _ => false
  end.

(** A mapping whose values are all text, as the pipe and the key=value
    dialects produce. *)
Definition text_mapping (d : list (str * pyval)) : Prop :=
  Forall (fun kv => is_text (snd kv) = true) d.

(** The value the key=value dialect gives a key: that of the last line
    whose trimmed key it is. *)
Fixpoint last_binding (k : str) (lines : list str) : option str :=
  match lines with
  | [] => None
  | line :: rest =>
      match last_binding k rest with
      | Some v => Some v
      | None =>
          match split_once 61%N line with
          | Some (k', v) => if str_eqb k (strip k') then Some (strip v) else None
          | None => None
          end
      end
  end.

(** What holds of every signal [build_signal] returns: the action is a
    marker, the lots are not zero, and id, symbol and comment are trimmed. *)
Definition well_formed (sig : Signal) : Prop :=
  (s_action sig = lit "BUY" \/ s_action sig = lit "SELL" \/ s_action sig = [])
  /\ float_truthy (s_lots sig) = true
  /\ strip (s_id sig) = s_id sig
  /\ strip (s_symbol sig) = s_symbol sig
  /\ strip (s_comment sig) = s_comment sig.

(** A value that is text or [None]. *)
Definition text_or_none (v : pyval) : Prop := v = PNone \/ is_text v = true.


(** The answers of a pull that say nothing is pending. *)
Definition absent_answer (r : response) : bool :=
  match r with
  | PullText body => str_eqb body (lit "NONE")
  | PullJson None => true
  | _ => false
  end.




(** Sample bodies, as they arrive on the wire. *)
Module Wire.

(** A literal in which the apostrophe stands for the double quote. *)
Definition quoted (s : string) : str := replace_char 39%N 34%N (lit s).

(** Lines joined by line feeds. *)
Definition lines_of (ls : list string) : str := join [10%N] (map lit ls).

Definition json_buy : str :=
  quoted "{'secret':'abc123','action':'buy','symbol':'eurusd','lots':'0.1'}".

Definition json_piped_id : str :=
  quoted "{'secret':'abc123','action':'buy','id':'a|b'}".

Definition json_array : str := lit "[1]".

Definition json_numeric_secret : str :=
  quoted "{'secret':123,'action':'buy'}".

Definition pipe_sell : str := lit "SELL|XAUUSD|0.02|1900|1950".

Definition kv_sell : str :=
  lines_of ["secret = abc123"; "action=sell"; "lots=0.5"; "note"; "lots=0.7";
            "comment=a=b"]%string.

(** Key=value lines, one of which holds a pipe. *)
Definition kv_with_pipe : str :=
  lines_of ["secret=abc123"; "action=buy"; "comment=a|b"]%string.

Definition good_header : option str := Some (lit "abc123").

End Wire.

(** Sample deployments, mappings and pools for the edges. *)
Module Edge.

Import Sample.

(** Window 22:00-06:00, enforced. *)
Definition overnight_cfg : Config :=
  {| SECRET := lit "abc123";
     ENFORCE_HOURS := lit "1";
     START_HHMM := lit "22:00";
     END_HHMM := lit "06:00";
     TRADE_START := mk_time 22 0 0 0;
     TRADE_END := mk_time 6 0 0 0 |}.

Definition eleven_pm : datetime := mk_datetime 2026 3 7 (mk_time 23 0 0 0).

(** 09:01:00.000001 *)
Definition just_after_nine_oh_one : datetime :=
  mk_datetime 2026 3 7 (mk_time 9 1 0 1).

Definition blank_symbol_dict : list (str * pyval) :=
  [field "action" "buy"; field "symbol" "  "].

Definition int_magic_dict : list (str * pyval) :=
  [field "action" "buy"; (lit "magic", PInt 7)].

Definition numeric_secret_dict : list (str * pyval) :=
  [(lit "secret", PInt 123); field "action" "buy"].

Definition wrong_secret_dict : list (str * pyval) :=
  [field "secret" "nope"; field "action" "buy"].

(** The object the accepted buy put in the store. *)
Definition stored_obj : obj := {| addr := 0; val := built buy_payload |}.


End Edge.

(** * Theorems *)

(** ** Text *)

Lemma str_eqb_spec (a b : str) : str_eqb a b = true <-> a = b.
Proof.
  revert b; induction a as [|x a IH]; intros [|y b]; simpl;
    try (split; [discriminate | congruence]); try tauto.
  rewrite andb_true_iff, N.eqb_eq, IH. split.
  - intros [-> ->]; reflexivity.
  - intros E; injection E; auto.
Qed.

Lemma str_eqb_refl (a : str) : str_eqb a a = true.
Proof. apply str_eqb_spec; reflexivity. Qed.

Lemma str_eqb_false (a b : str) : str_eqb a b = false <-> a <> b.
Proof.
  rewrite <- str_eqb_spec. destruct (str_eqb a b); split; congruence.
Qed.

Lemma split_on_nonempty (sep : codepoint) (s : str) : split_on sep s <> [].
Proof.
  destruct s as [|c s]; simpl; [discriminate|].
  destruct (N.eqb c sep); [discriminate|].
  destruct (split_on sep s); discriminate.
Qed.

(** Splitting a text without the separator returns it whole. *)
Lemma split_on_free (sep : codepoint) (s : str) :
  ~ In sep s -> split_on sep s = [s].
Proof.
  induction s as [|c s IH]; simpl; intros H; [reflexivity|].
  destruct (N.eqb_spec c sep) as [->|_]; [tauto|].
  rewrite IH by tauto. reflexivity.
Qed.

(** A field without the separator, followed by the separator, is the first
    field of the split. *)
Lemma split_on_app (sep : codepoint) (f rest : str) :
  ~ In sep f -> split_on sep (f ++ sep :: rest) = f :: split_on sep rest.
Proof.
  induction f as [|c f IH]; simpl; intros H.
  - rewrite N.eqb_refl; reflexivity.
  - destruct (N.eqb_spec c sep) as [->|_]; [tauto|].
    rewrite IH by tauto. reflexivity.
Qed.

(** ** Action normalization *)

Section ActionNormalization.
Context {R : Runtime}.

Lemma py_or_empty_default (a : option str) :
  py_or (of_opt a) (PStr []) = PStr (text_of a).
Proof. destruct a as [[|c s]|]; reflexivity. Qed.

(** [normalize_action] never raises on a string or on [None], and its result
    is read off the trimmed, upper-cased text. *)
Lemma normalize_action_text (a : option str) :
  normalize_action (of_opt a)
  = let u := str_upper (strip (text_of a)) in
    Ok (if str_eqb u (lit "BUY") || str_eqb u (lit "LONG") then lit "BUY"
        else if str_eqb u (lit "SELL") || str_eqb u (lit "SHORT") then lit "SELL"
        else []).
Proof.
  unfold normalize_action. rewrite py_or_empty_default. cbn [py_strip bind].
  cbv zeta.
  destruct (str_eqb _ (lit "BUY") || str_eqb _ (lit "LONG")); [reflexivity|].
  destruct (str_eqb _ (lit "SELL") || str_eqb _ (lit "SHORT")); reflexivity.
Qed.

(** C5: for every input string (or an absent value) [normalize_action] trims
    and upper-cases it; BUY and LONG give "BUY", SELL and SHORT give "SELL",
    every other text gives the empty string, and so do the empty string and
    [None]. *)
Theorem normalize_action_spec (a : option str) :
  let u := str_upper (strip (text_of a)) in
  (u = lit "BUY" \/ u = lit "LONG" ->
     normalize_action (of_opt a) = Ok (lit "BUY"))
  /\ (u = lit "SELL" \/ u = lit "SHORT" ->
     normalize_action (of_opt a) = Ok (lit "SELL"))
  /\ (u <> lit "BUY" -> u <> lit "LONG" -> u <> lit "SELL" -> u <> lit "SHORT" ->
     normalize_action (of_opt a) = Ok [])
  /\ normalize_action (PStr []) = Ok []
  /\ normalize_action PNone = Ok [].
Proof.
  cbv zeta. rewrite normalize_action_text. cbv zeta.
  set (u := str_upper (strip (text_of a))).
  repeat split.
  - intros [E|E]; rewrite E; reflexivity.
  - intros [E|E]; rewrite E; reflexivity.
  - intros H1 H2 H3 H4.
    apply str_eqb_false in H1, H2, H3, H4.
    rewrite H1, H2, H3, H4. reflexivity.
Qed.

(** The result is one of the three markers, whatever the text. *)
Lemma normalize_action_range (a : option str) :
  normalize_action (of_opt a) = Ok (lit "BUY")
  \/ normalize_action (of_opt a) = Ok (lit "SELL")
  \/ normalize_action (of_opt a) = Ok [].
Proof.
  rewrite normalize_action_text. cbv zeta.
  destruct (str_eqb _ (lit "BUY") || str_eqb _ (lit "LONG")); [auto|].
  destruct (str_eqb _ (lit "SELL") || str_eqb _ (lit "SHORT")); auto.
Qed.

(** A value that is neither text nor false has no [strip]: the call raises. *)
Lemma normalize_action_number (z : Z) :
  z <> 0 -> normalize_action (PInt z) = Raise AttributeError.
Proof.
  intros H. unfold normalize_action, py_or. simpl.
  destruct (Z.eqb_spec z 0); [contradiction|reflexivity].
Qed.

End ActionNormalization.

(** ** Authentication *)

Section Authentication.
Context {R : Runtime}.
Variable cfg : Config.

Lemma or_chain_first_nonempty (b h q : option str) :
  py_or (of_opt b) (py_or (of_opt h) (py_or (of_opt q) (PStr [])))
  = PStr (text_of (first_nonempty [b; h; q])).
Proof.
  destruct b as [[|c1 s1]|], h as [[|c2 s2]|], q as [[|c3 s3]|]; reflexivity.
Qed.

(** With candidates that are strings or absent, [check_secret] never raises
    and computes the rule of the specification. *)
Lemma check_secret_text (b h q : option str) :
  check_secret cfg (of_opt b) (of_opt h) (of_opt q)
  = Ok (if str_eqb (SECRET cfg) [] then false
        else match first_nonempty [b; h; q] with
             | Some c => str_eqb (strip c) (SECRET cfg)
             | None => false
             end).
Proof.
  unfold check_secret.
  destruct (str_eqb (SECRET cfg) []) eqn:E; [reflexivity|].
  rewrite or_chain_first_nonempty. cbn [py_strip bind].
  destruct (first_nonempty [b; h; q]) as [c|]; [reflexivity|].
  cbn. destruct (SECRET cfg); [discriminate E | reflexivity].
Qed.

(** C2: with an empty configured secret [check_secret] rejects whatever the
    candidates are (strings, empty strings, anything); with a non-empty one
    it accepts exactly when the first non-empty candidate among body,
    header, query, trimmed, equals the configured secret. *)
Theorem check_secret_spec :
  (SECRET cfg = [] ->
     forall p h q : pyval, check_secret cfg p h q = Ok false)
  /\ (SECRET cfg <> [] ->
     forall b h q : option str,
       check_secret cfg (of_opt b) (of_opt h) (of_opt q) = Ok true
       <-> exists c, first_nonempty [b; h; q] = Some c
                     /\ strip c = SECRET cfg)
  /\ (forall b h q : option str,
       check_secret cfg (of_opt b) (of_opt h) (of_opt q) = Ok true
       \/ check_secret cfg (of_opt b) (of_opt h) (of_opt q) = Ok false).
Proof.
  split; [|split].
  - intros E p h q. unfold check_secret. rewrite E. reflexivity.
  - intros NE b h q. rewrite check_secret_text.
    apply str_eqb_false in NE. rewrite NE.
    destruct (first_nonempty [b; h; q]) as [c|].
    + split.
      * intros H. injection H as H. apply str_eqb_spec in H. eauto.
      * intros (c' & E & H). injection E as <-.
        f_equal. apply str_eqb_spec. exact H.
    + split; [discriminate|]. intros (c' & E & _); discriminate.
  - intros b h q. rewrite check_secret_text.
    destruct (if str_eqb (SECRET cfg) [] then false else _); auto.
Qed.

End Authentication.

(** ** Configuration *)

Section Loading.
Context {R : Runtime}.




(** [time(h, m)] returns a valid time of day, on the minute. *)
Lemma make_time_valid (h m : Z) (t : time) :
  make_time h m = Ok t ->
  valid_time t /\ second t = 0 /\ microsecond t = 0.
Proof.
  unfold make_time, valid_time.
  destruct ((0 <=? h) && (h <? 24) && (0 <=? m) && (m <? 60)) eqn:E;
    [|discriminate].
  intros H; injection H as <-. cbn.
  repeat rewrite andb_true_iff in E. lia.
Qed.

Lemma parse_hhmm_valid (s : str) (t : time) :
  parse_hhmm s = Ok t -> valid_time t /\ second t = 0 /\ microsecond t = 0.
Proof.
  unfold parse_hhmm.
  destruct (split_on 58%N s) as [|hh [|mm [|x l]]]; try discriminate.
  destruct (int_py hh) as [h|]; [|discriminate].
  destruct (int_py mm) as [m|]; [|discriminate].
  cbn [bind]. apply make_time_valid.
Qed.

End Loading.

(** ** The trade window *)

Section TradeWindow.
Context {R : Runtime}.
Variable cfg : Config.

(** The comparison of [datetime.time] is the order of the instants of the
    day. *)
Lemma time_leb_micros (a b : time) :
  valid_time a -> valid_time b ->
  (time_leb a b = true <-> micros_of_day a <= micros_of_day b).
Proof.
  unfold valid_time, micros_of_day, time_leb.
  intros (Ha1 & Ha2 & Ha3 & Ha4) (Hb1 & Hb2 & Hb3 & Hb4).
  destruct (Z.ltb_spec (hour a) (hour b)); [split; [nia|reflexivity]|].
  destruct (Z.ltb_spec (hour b) (hour a)); [split; [discriminate|nia]|].
  destruct (Z.ltb_spec (minute a) (minute b)); [split; [nia|reflexivity]|].
  destruct (Z.ltb_spec (minute b) (minute a)); [split; [discriminate|nia]|].
  destruct (Z.ltb_spec (second a) (second b)); [split; [nia|reflexivity]|].
  destruct (Z.ltb_spec (second b) (second a)); [split; [discriminate|nia]|].
  rewrite Z.leb_le. split; nia.
Qed.

Lemma in_trade_window_off (dt : datetime) :
  ENFORCE_HOURS cfg <> lit "1" -> in_trade_window cfg dt = true.
Proof.
  intros H. unfold in_trade_window.
  apply str_eqb_false in H. rewrite H. reflexivity.
Qed.

Lemma in_trade_window_on (dt : datetime) :
  ENFORCE_HOURS cfg = lit "1" ->
  in_trade_window cfg dt
  = time_leb (TRADE_START cfg) (tod dt) && time_leb (tod dt) (TRADE_END cfg).
Proof.
  intros H. unfold in_trade_window. rewrite H, str_eqb_refl. reflexivity.
Qed.

(** C8: with enforcement on, the gate admits an instant exactly when its
    time of day [t] satisfies [start <= t <= end], both bounds included;
    with enforcement off it admits every instant. *)
Theorem in_trade_window_spec (dt : datetime) :
  valid_time (TRADE_START cfg) ->
  valid_time (TRADE_END cfg) ->
  valid_time (tod dt) ->
  (ENFORCE_HOURS cfg = lit "1" ->
     (in_trade_window cfg dt = true
      <-> micros_of_day (TRADE_START cfg) <= micros_of_day (tod dt)
                                          <= micros_of_day (TRADE_END cfg)))
  /\ (ENFORCE_HOURS cfg <> lit "1" -> in_trade_window cfg dt = true).
Proof.
  intros Vs Ve Vt. split.
  - intros On. rewrite (in_trade_window_on dt On), andb_true_iff.
    rewrite (time_leb_micros _ _ Vs Vt), (time_leb_micros _ _ Vt Ve).
    reflexivity.
  - apply in_trade_window_off.
Qed.

(** C10: enforcement is active only when [ENFORCE_HOURS] is exactly the
    string "1": with any other value the gate admits every instant, whatever
    the configured start and end, and a gate that turns an instant away has
    the value "1". *)
Theorem enforcement_only_on_1 :
  (ENFORCE_HOURS cfg <> lit "1" ->
     forall (start_ end_ : time) (dt : datetime),
       in_trade_window (with_window cfg start_ end_) dt = true)
  /\ (forall dt : datetime,
        in_trade_window cfg dt = false -> ENFORCE_HOURS cfg = lit "1").
Proof.
  split.
  - intros H start_ end_ dt. unfold in_trade_window. cbn [ENFORCE_HOURS with_window].
    apply str_eqb_false in H. rewrite H. reflexivity.
  - intros dt. unfold in_trade_window.
    destruct (str_eqb (ENFORCE_HOURS cfg) (lit "1")) eqn:E; [|discriminate].
    intros _. apply str_eqb_spec. exact E.
Qed.

End TradeWindow.

(** ** The one-shot store *)

Section Store.
Context {R : Runtime}.
Variable cfg : Config.

(** What a webhook call can do to the store: nothing, or put one fresh
    object in both slots. *)
Lemma webhook_cases data h q now now_sig uuid8 st :
  let '(r, st') := webhook cfg data h q now now_sig uuid8 st in
  (st' = st /\ status_code r <> 200)
  \/ (exists sig,
        build_signal data now_sig uuid8 = Ok sig
        /\ s_action sig <> []
        /\ webhook_auth cfg data h q = Ok true
        /\ in_trade_window cfg now = true
        /\ r = Stored (s_id sig) (s_ts sig)
        /\ st' = {| last := Some {| addr := next_addr st; val := sig |};
                    pending := Some {| addr := next_addr st; val := sig |};
                    next_addr := S (next_addr st) |}).
Proof.
  unfold webhook.
  destruct (webhook_auth cfg data h q) as [[|]|e];
    try (left; split; [reflexivity | cbn; lia]).
  destruct (in_trade_window cfg now); cbn [negb];
    try (left; split; [reflexivity | cbn; lia]).
  destruct (build_signal data now_sig uuid8) as [sig|e];
    try (left; split; [reflexivity | cbn; lia]).
  destruct (str_eqb (s_action sig) []) eqn:E;
    try (left; split; [reflexivity | cbn; lia]).
  right. exists sig. apply str_eqb_false in E. auto 10.
Qed.

(** An accepted webhook call, read backwards. *)
Lemma webhook_accepted data h q now now_sig uuid8 st r st' :
  webhook cfg data h q now now_sig uuid8 st = (r, st') ->
  status_code r = 200 ->
  exists sig,
    build_signal data now_sig uuid8 = Ok sig
    /\ s_action sig <> []
    /\ r = Stored (s_id sig) (s_ts sig)
    /\ st' = {| last := Some {| addr := next_addr st; val := sig |};
                pending := Some {| addr := next_addr st; val := sig |};
                next_addr := S (next_addr st) |}.
Proof.
  intros W C. pose proof (webhook_cases data h q now now_sig uuid8 st) as H.
  rewrite W in H. destruct H as [[_ N]|(sig & B & A & _ & _ & -> & ->)].
  - contradiction.
  - exists sig. auto.
Qed.


(** A pull changes nothing but the pending slot, and only to clear it. *)
Lemma pull_effect h q f st :
  snd (pull cfg h q f st) = st \/ snd (pull cfg h q f st) = clear_pending st.
Proof.
  unfold pull.
  destruct (check_secret cfg PNone (of_opt h) (of_opt q)) as [[|]|e]; auto.
  destruct (pending st); auto.
Qed.

(** The two answers of a pull are told apart in either format. *)
Lemma present_not_absent fmt fmt' sig : pull_present fmt sig <> pull_absent fmt'.
Proof.
  unfold pull_present, pull_absent.
  destruct (str_eqb fmt (lit "txt")), (str_eqb fmt' (lit "txt"));
    discriminate.
Qed.


(** The handlers keep the slots in agreement. *)
Lemma handle_slots_agree r st :
  slots_agree st -> slots_agree (snd (handle cfg r st)).
Proof.
  intros I. destruct r as [data h q now now_sig uuid8|h q|h q f|now]; cbn [handle].
  - pose proof (webhook_cases data h q now now_sig uuid8 st) as H.
    destruct (webhook cfg data h q now now_sig uuid8 st) as [r st'].
    destruct H as [[-> _]|(sig & _ & _ & _ & _ & _ & ->)]; [exact I|].
    right; reflexivity.
  - unfold latest.
    destruct (check_secret cfg PNone (of_opt h) (of_opt q)) as [[|]|e]; exact I.
  - destruct (pull_effect h q f st) as [-> | ->]; [exact I|].
    left; reflexivity.
  - exact I.
Qed.

(** C4: in every state reachable from the empty store by webhook, latest,
    pull and health requests, [pending] is [None] or the very object in
    [last]; an accepted webhook sets both slots to one object; and a request
    that takes the slots from equal to different is a pull that returned the
    pending signal. *)
Theorem slots_agree_reachable st :
  reachable cfg st ->
  slots_agree st
  /\ (forall data h q now now_sig uuid8,
        status_code (fst (webhook cfg data h q now now_sig uuid8 st)) = 200 ->
        let st' := snd (webhook cfg data h q now now_sig uuid8 st) in
        pending st' = last st' /\ pending st' <> None)
  /\ (forall r,
        pending st = last st ->
        pending (snd (handle cfg r st)) <> last (snd (handle cfg r st)) ->
        exists h q f o,
          r = ReqPull h q f
          /\ pending st = Some o
          /\ fst (handle cfg r st) = pull_present (pull_format f) (val o)
          /\ snd (handle cfg r st) = clear_pending st).
Proof.
  intros Re. split; [|split].
  - induction Re as [|r st Re IH].
    + left; reflexivity.
    + apply handle_slots_agree; exact IH.
  - intros data h q now now_sig uuid8 C.
    destruct (webhook cfg data h q now now_sig uuid8 st) as [r st'] eqn:W.
    cbn [fst snd] in *.
    destruct (webhook_accepted _ _ _ _ _ _ _ _ _ W C) as (s & _ & _ & _ & ->).
    cbn. split; [reflexivity|discriminate].
  - intros r E D.
    destruct r as [data h q now now_sig uuid8|h q|h q f|now]; cbn [handle] in *.
    + pose proof (webhook_cases data h q now now_sig uuid8 st) as H.
      destruct (webhook cfg data h q now now_sig uuid8 st) as [r st'].
      cbn [snd] in D.
      destruct H as [[-> _]|(sig & _ & _ & _ & _ & _ & ->)];
        [congruence | cbn in D; congruence].
    + unfold latest in D.
      destruct (check_secret cfg PNone (of_opt h) (of_opt q)) as [[|]|e];
        cbn [snd] in D; congruence.
    + unfold pull in *.
      destruct (check_secret cfg PNone (of_opt h) (of_opt q)) as [[|]|e];
        cbn [snd] in D; try congruence.
      destruct (pending st) as [o|] eqn:P; cbn [snd] in D; [|congruence].
      exists h, q, f, o. auto.
    + cbn in D. congruence.
Qed.

End Store.

(** ** The webhook outside the trade window *)

Section WindowClosed.
Context {R : Runtime}.
Variable cfg : Config.

(** The gate turns away an instant outside an enforced window. *)
Lemma outside_window_rejected (dt : datetime) :
  valid_time (TRADE_START cfg) ->
  valid_time (TRADE_END cfg) ->
  valid_time (tod dt) ->
  ENFORCE_HOURS cfg = lit "1" ->
  micros_of_day (tod dt) < micros_of_day (TRADE_START cfg)
  \/ micros_of_day (TRADE_END cfg) < micros_of_day (tod dt) ->
  in_trade_window cfg dt = false.
Proof.
  intros Vs Ve Vt On Out.
  rewrite (in_trade_window_on cfg dt On).
  destruct (time_leb (TRADE_START cfg) (tod dt)) eqn:E1; [|reflexivity].
  destruct (time_leb (tod dt) (TRADE_END cfg)) eqn:E2; [|reflexivity].
  apply (time_leb_micros _ _ Vs Vt) in E1.
  apply (time_leb_micros _ _ Vt Ve) in E2. lia.
Qed.

(** C6: with enforcement on and the clock outside the window, an
    authenticated [POST /webhook] is answered 403 and leaves the store as it
    was: [last] and [pending] keep their values. *)
Theorem webhook_outside_window data h q now now_sig uuid8 st :
  webhook_auth cfg data h q = Ok true ->
  valid_time (TRADE_START cfg) ->
  valid_time (TRADE_END cfg) ->
  valid_time (tod now) ->
  ENFORCE_HOURS cfg = lit "1" ->
  micros_of_day (tod now) < micros_of_day (TRADE_START cfg)
  \/ micros_of_day (TRADE_END cfg) < micros_of_day (tod now) ->
  let '(r, st') := webhook cfg data h q now now_sig uuid8 st in
  r = OutsideTradeWindow (isoformat now) (START_HHMM cfg) (END_HHMM cfg)
  /\ status_code r = 403
  /\ last st' = last st
  /\ pending st' = pending st
  /\ st' = st.
Proof.
  intros A Vs Ve Vt On Out. unfold webhook.
  rewrite A, (outside_window_rejected now Vs Ve Vt On Out). cbn.
  auto.
Qed.

(** An error answer of any kind leaves the store as it was. *)
Lemma webhook_error_keeps_store data h q now now_sig uuid8 st :
  status_code (fst (webhook cfg data h q now now_sig uuid8 st)) <> 200 ->
  snd (webhook cfg data h q now now_sig uuid8 st) = st.
Proof.
  intros N. pose proof (webhook_cases cfg data h q now now_sig uuid8 st) as H.
  destruct (webhook cfg data h q now now_sig uuid8 st) as [r st'].
  destruct H as [[-> _]|(sig & _ & _ & _ & _ & -> & _)]; [reflexivity|].
  cbn in N. contradiction.
Qed.

End WindowClosed.

(** ** Overlapping pulls *)

Section Overlap.
Context {R : Runtime}.
Variable cfg : Config.


(** C1: two pulls that overlap after one write can both return the stored
    signal.  Thread 0 reads the pending slot, thread 1 reads it before
    thread 0 has cleared it, and each then answers with the signal it read:
    the signal is delivered twice, not once. *)
Theorem overlapping_pulls_deliver_twice h1 q1 f1 h2 q2 f2 st o :
  check_secret cfg PNone (of_opt h1) (of_opt q1) = Ok true ->
  check_secret cfg PNone (of_opt h2) (of_opt q2) = Ok true ->
  pending st = Some o ->
  run_schedule cfg [0; 1; 0; 1]%nat [Arrived h1 q1 f1; Arrived h2 q2 f2] st
  = ([Returned (pull_present (pull_format f1) (val o));
      Returned (pull_present (pull_format f2) (val o))],
     clear_pending st).
Proof.
  intros A1 A2 P.
  cbn [run_schedule pool_step thread_step].
  rewrite A1, P. cbn [run_schedule pool_step thread_step].
  rewrite A2, P. cbn. reflexivity.
Qed.

(** When the same two pulls do not overlap, the second finds the slot
    empty. *)
Lemma serial_pulls_deliver_once h1 q1 f1 h2 q2 f2 st o :
  check_secret cfg PNone (of_opt h1) (of_opt q1) = Ok true ->
  check_secret cfg PNone (of_opt h2) (of_opt q2) = Ok true ->
  pending st = Some o ->
  run_schedule cfg [0; 0; 1; 1]%nat [Arrived h1 q1 f1; Arrived h2 q2 f2] st
  = ([Returned (pull_present (pull_format f1) (val o));
      Returned (pull_absent (pull_format f2))],
     clear_pending st).
Proof.
  intros A1 A2 P.
  cbn [run_schedule pool_step thread_step].
  rewrite A1, P. cbn [run_schedule pool_step thread_step].
  rewrite A2. cbn. reflexivity.
Qed.



End Overlap.

(** ** The magic number *)

Section Magic.
Context {R : Runtime}.

(** [float(2026)] is exact, true, and [int] returns it whole. *)
Lemma magic_default_roundtrip :
  safe_float (PInt 2026) = Some (S754_finite false 8910442231496704 (-42))
  /\ int_of_float (S754_finite false 8910442231496704 (-42)) = Ok 2026.
Proof. split; reflexivity. Qed.

(** A value that is absent or false is replaced by 2026 before it is
    coerced. *)
Lemma magic_of_falsy (m : pyval) : truthy m = false -> magic_of m = Ok 2026.
Proof. intros F. unfold magic_of, py_or. rewrite F. reflexivity. Qed.

(** A true value that is not a number, or whose number is a zero, yields
    2026; one whose number is not a zero yields [int] of that number. *)
Lemma magic_of_truthy (m : pyval) :
  truthy m = true ->
  magic_of m = match safe_float m with
               | Some f => if float_truthy f then int_of_float f else Ok 2026
               | None => Ok 2026
               end.
Proof. intros T. unfold magic_of, py_or. rewrite T. reflexivity. Qed.

(** [int] of a finite float never raises. *)
Lemma int_of_float_finite s m e :
  int_of_float (S754_finite s m e)
  = Ok (if s then - Z.shiftl (Zpos m) e else Z.shiftl (Zpos m) e).
Proof. reflexivity. Qed.

(** Line 97 returns a number unless the value coerces to an infinity or to
    a NaN: [int] raises on those, and nothing catches it. *)
Lemma magic_of_defined (m : pyval) :
  (forall s, safe_float (py_or m (PInt 2026)) <> Some (S754_infinity s)) ->
  safe_float (py_or m (PInt 2026)) <> Some S754_nan ->
  exists z, magic_of m = Ok z.
Proof.
  intros I N. unfold magic_of.
  destruct (safe_float (py_or m (PInt 2026))) as [[s|s| |s mant e]|]; cbn; eauto.
  - destruct (I s eq_refl).
  - destruct (N eq_refl).
Qed.

Lemma magic_of_infinite (m : pyval) (s : bool) :
  truthy m = true ->
  safe_float m = Some (S754_infinity s) ->
  magic_of m = Raise OverflowError.
Proof. intros T E. rewrite (magic_of_truthy m T), E. reflexivity. Qed.

(** The magic number of a built signal is [magic_of] of the value under
    [magic]. *)
Lemma build_signal_magic data now uuid8 sig m :
  build_signal data now uuid8 = Ok sig ->
  dict_get data (lit "magic") = Ok m ->
  magic_of m = Ok (s_magic sig).
Proof.
  unfold build_signal. destruct data; try discriminate.
  cbn [dict_get bind]. intros B E. injection E as <-.
  repeat match type of B with
         | bind ?x _ = Ok _ =>
             destruct x eqn:?; cbn [bind] in B; [|discriminate B]
         end.
  injection B as <-. reflexivity.
Qed.

(** C9, amended: the magic number of a built signal is the integer
    truncation of the number the value under [magic] coerces to whenever the
    value is present, parseable and its number is finite and not a zero; it
    is the default 2026 when the value is absent or false (None, empty, 0),
    unparseable, or coerces to a zero. *)
Theorem magic_number_amended data now uuid8 sig m :
  build_signal data now uuid8 = Ok sig ->
  dict_get data (lit "magic") = Ok m ->
  (forall f,
     truthy m = true -> safe_float m = Some f -> float_truthy f = true ->
     int_of_float f = Ok (s_magic sig))
  /\ (truthy m = false
      \/ safe_float m = None
      \/ (exists f, safe_float m = Some f /\ float_truthy f = false) ->
      s_magic sig = 2026).
Proof.
  intros B E. pose proof (build_signal_magic _ _ _ _ _ B E) as M. split.
  - intros f T S NZ. rewrite (magic_of_truthy m T), S, NZ in M. exact M.
  - intros H. destruct (truthy m) eqn:T.
    + rewrite (magic_of_truthy m T) in M.
      destruct H as [H|[H|(f & S & Z)]].
      * discriminate.
      * rewrite H in M. congruence.
      * rewrite S, Z in M. congruence.
    + rewrite (magic_of_falsy m T) in M. congruence.
Qed.

End Magic.

(** ** The line-text format *)

Section LineText.
Context {R : Runtime}.

Lemma split_on_length (sep : codepoint) (s : str) :
  List.length (split_on sep s) = S (count_occ N.eq_dec s sep).
Proof.
  induction s as [|c s IH]; [reflexivity|].
  cbn [split_on count_occ].
  destruct (N.eqb_spec c sep) as [->|NE].
  - destruct (N.eq_dec sep sep) as [_|N]; [|contradiction].
    cbn [List.length]. rewrite IH. reflexivity.
  - destruct (N.eq_dec c sep) as [E|_]; [contradiction|].
    destruct (split_on sep s) as [|f fs] eqn:S; [discriminate IH|].
    cbn [List.length] in *. exact IH.
Qed.

Lemma digit_char_not_pipe (d : Z) : 0 <= d < 10 -> digit_char d <> pipe.
Proof.
  intros H E. unfold digit_char, pipe in E.
  assert (E' : Z.of_N (Z.to_N (48 + d)) = 124) by (rewrite E; reflexivity).
  rewrite Z2N.id in E' by lia. lia.
Qed.

Lemma digits_fuel_pipe_free (fuel : nat) (n : Z) (acc : str) :
  0 <= n -> pipe_free acc -> pipe_free (digits_fuel fuel n acc).
Proof.
  revert n acc. induction fuel as [|k IH]; intros n acc N A; cbn [digits_fuel];
    [exact A|].
  destruct (Z.ltb_spec n 10).
  - intros [E|I]; [|exact (A I)].
    apply (digit_char_not_pipe n); [lia | exact E].
  - apply IH.
    + apply Z.div_pos; lia.
    + intros [E|I]; [|exact (A I)].
      apply (digit_char_not_pipe (n mod 10)); [|exact E].
      apply Z.mod_pos_bound; lia.
Qed.

(** The decimal text of an integer holds no pipe. *)
Lemma str_of_Z_pipe_free (z : Z) : pipe_free (str_of_Z z).
Proof.
  unfold str_of_Z.
  assert (D : pipe_free (digits_fuel (S (Z.to_nat (Z.log2 (Z.abs z)))) (Z.abs z) []))
    by (apply digits_fuel_pipe_free; [lia | intros []]).
  destruct (z <? 0); [|exact D].
  intros [E|I]; [discriminate E | exact (D I)].
Qed.

(** Line 239 leaves no pipe in the comment. *)
Lemma replace_pipe_free (s : str) : pipe_free (replace_char pipe 32%N s).
Proof.
  unfold pipe_free, replace_char. rewrite in_map_iff.
  intros (c & E & _). destruct (N.eqb c pipe) eqn:Q.
  - discriminate E.
  - apply N.eqb_neq in Q. congruence.
Qed.

(** Fields without a pipe, joined by pipes, split back into themselves. *)
Lemma split_join_pipe_free (fields : list str) :
  fields <> [] ->
  Forall pipe_free fields ->
  split_on pipe (join [pipe] fields) = fields.
Proof.
  intros NE F. induction F as [|f fs Hf F IH]; [contradiction|].
  destruct fs as [|g fs].
  - cbn [join]. apply split_on_free. exact Hf.
  - change (join [pipe] (f :: g :: fs)) with (f ++ pipe :: join [pipe] (g :: fs)).
    rewrite (split_on_app pipe f _ Hf), IH by discriminate. reflexivity.
Qed.

(** The round trip of the line-text format, on the signals it holds for:
    when neither the id, the action, the symbol nor the timestamp of a
    signal holds a pipe, and the runtime writes its floats without one, the
    pull line splits on the pipe into exactly the ten rendered fields, and
    the sl (tp) field is empty exactly when sl (tp) is absent. *)
Lemma line_text_fields (sig : Signal) :
  pipe_free (s_id sig) ->
  pipe_free (s_action sig) ->
  pipe_free (s_symbol sig) ->
  pipe_free (s_ts sig) ->
  pipe_free (float_repr (s_lots sig)) ->
  (forall f, s_sl sig = Some f \/ s_tp sig = Some f ->
             pipe_free (float_repr f) /\ float_repr f <> []) ->
  split_on pipe (line_text sig)
  = [lit "OK"; s_id sig; s_action sig; s_symbol sig; float_repr (s_lots sig);
     opt_float_text (s_sl sig); opt_float_text (s_tp sig); s_ts sig;
     str_of_Z (s_magic sig); replace_char pipe 32%N (s_comment sig)]
  /\ (opt_float_text (s_sl sig) = [] <-> s_sl sig = None)
  /\ (opt_float_text (s_tp sig) = [] <-> s_tp sig = None).
Proof.
  intros Hid Hact Hsym Hts Hlots Hrepr.
  assert (Hopt : forall o, (forall f, o = Some f ->
                              pipe_free (float_repr f) /\ float_repr f <> []) ->
                           pipe_free (opt_float_text o)
                           /\ (opt_float_text o = [] <-> o = None)).
  { intros [f|] H; cbn [opt_float_text].
    - destruct (H f eq_refl) as [P N]. split; [exact P|].
      split; [contradiction | discriminate].
    - split; [intros [] | tauto]. }
  assert (Hsl := Hopt (s_sl sig) (fun f E => Hrepr f (or_introl E))).
  assert (Htp := Hopt (s_tp sig) (fun f E => Hrepr f (or_intror E))).
  split; [|split; [apply Hsl | apply Htp]].
  unfold line_text. apply split_join_pipe_free; [discriminate|].
  repeat constructor; try assumption;
    try apply Hsl; try apply Htp;
    try apply str_of_Z_pipe_free; try apply replace_pipe_free.
  unfold pipe_free, pipe. cbn. intros [E|[E|[]]]; discriminate E.
Qed.

(** C7: a signal whose id is [a|b] is rendered as a line that splits into
    more than ten fields, and the fields that should hold the id and the
    action hold [a] and [b]: the id is not recovered. *)
Theorem pipe_in_id_breaks_fields (sig : Signal) :
  s_id sig = lit "a|b" ->
  (10 < List.length (split_on pipe (line_text sig)))%nat
  /\ nth 1 (split_on pipe (line_text sig)) [] = lit "a"
  /\ nth 2 (split_on pipe (line_text sig)) [] = lit "b"
  /\ nth 1 (split_on pipe (line_text sig)) [] <> s_id sig.
Proof.
  intros E. unfold line_text. rewrite E. cbv zeta. split.
  - rewrite split_on_length. cbn [join].
    repeat rewrite count_occ_app. cbn. lia.
  - cbn [join].
    change (lit "OK" ++ [pipe] ++ lit "a|b" ++ [pipe] ++ ?x)
      with (lit "OK" ++ pipe :: lit "a" ++ pipe :: lit "b" ++ pipe :: x).
    rewrite (split_on_app pipe (lit "OK")) by (cbn; intros [H|[H|[]]]; discriminate H).
    rewrite (split_on_app pipe (lit "a")) by (cbn; intros [H|[]]; discriminate H).
    rewrite (split_on_app pipe (lit "b")) by (cbn; intros [H|[]]; discriminate H).
    cbn [nth]. repeat split. discriminate.
Qed.

End LineText.

(** ** Concrete runs

    The theorems above at the sample deployments, evaluated with
    [ascii_runtime]. *)

Import Sample.

(** The scenario of the specification: an accepted buy, pulled as text, and
    the pull that follows. *)
Example scenario_buy_then_pull :
  fst (serve open_cfg
         [ReqWebhook buy_payload None None ten_oclock ten_oclock uuid8;
          ReqPull None good_secret txt;
          ReqPull None good_secret txt;
          ReqPull None good_secret None] initial_state)
  = [Stored (lit "1b9d6bcd") (lit "2026-03-07T10:00:00-04:00");
     PullText (lit "OK|1b9d6bcd|BUY|eurusd|0.1|||2026-03-07T10:00:00-04:00|2026|TV");
     PullText (lit "NONE");
     PullJson None].
Proof. vm_compute. reflexivity. Qed.

(** The module's globals for a sample environment. *)
Example load_narrow_cfg :
  load_config (environ "abc123" "1" "09:00" "09:01") = Ok narrow_cfg.
Proof. vm_compute. reflexivity. Qed.

Example normalize_action_samples :
  map (fun s => normalize_action (PStr (lit s)))
      [" buy "; "Long"; "SELL"; "short"; "hold"; ""; "buy now"]%string
  = [Ok (lit "BUY"); Ok (lit "BUY"); Ok (lit "SELL"); Ok (lit "SELL");
     Ok []; Ok []; Ok []].
Proof. vm_compute. reflexivity. Qed.

(** An empty configured secret and an empty supplied header: rejected. *)
Example empty_secret_empty_header :
  check_secret unset_cfg PNone (PStr []) PNone = Ok false
  /\ fst (pull unset_cfg (Some []) None None initial_state) = Unauthorized.
Proof. split; reflexivity. Qed.

(** The body outranks the header, and the header the query. *)
Example secret_priority :
  check_secret open_cfg (PStr (lit "wrong")) (PStr (lit "abc123")) PNone = Ok false
  /\ check_secret open_cfg (PStr []) (PStr (lit " abc123 ")) PNone = Ok true
  /\ check_secret open_cfg PNone PNone (PStr (lit "abc123")) = Ok true
  /\ check_secret open_cfg PNone PNone PNone = Ok false.
Proof. repeat split; reflexivity. Qed.

(** Values of [ENFORCE_HOURS] other than "1" leave the narrow window open at
    ten o'clock. *)
Example enforcement_samples :
  map (fun v => in_trade_window
                  {| SECRET := lit "abc123"; ENFORCE_HOURS := lit v;
                     START_HHMM := lit "09:00"; END_HHMM := lit "09:01";
                     TRADE_START := mk_time 9 0 0 0;
                     TRADE_END := mk_time 9 1 0 0 |} ten_oclock)
      ["true"; "yes"; "0"; ""; "1"]%string
  = [true; true; true; true; false].
Proof. vm_compute. reflexivity. Qed.


(** [slots_agree_reachable] at the store reached by a webhook and a pull. *)
Lemma slots_agree_reachable_witness : slots_agree after_pull.
Proof.
  refine (proj1 (@slots_agree_reachable ascii_runtime open_cfg after_pull _)).
  apply (reach_step open_cfg (ReqPull None good_secret txt) after_buy).
  apply (reach_step open_cfg
           (ReqWebhook buy_payload None None ten_oclock ten_oclock uuid8)
           initial_state).
  apply reach_init.
Defined.

(** [webhook_outside_window] at the scenario of the specification: window
    09:00-09:01, enforced, clock at 10:00. *)
Lemma webhook_outside_window_witness :
  let '(r, st') := webhook narrow_cfg buy_payload None None ten_oclock
                           ten_oclock uuid8 after_buy in
  r = OutsideTradeWindow (isoformat ten_oclock) (lit "09:00") (lit "09:01")
  /\ status_code r = 403
  /\ last st' = last after_buy
  /\ pending st' = pending after_buy
  /\ st' = after_buy.
Proof.
  apply (@webhook_outside_window ascii_runtime narrow_cfg buy_payload None None
           ten_oclock ten_oclock uuid8 after_buy).
  - vm_compute. reflexivity.
  - unfold valid_time. cbn. lia.
  - unfold valid_time. cbn. lia.
  - unfold valid_time. cbn. lia.
  - reflexivity.
  - right. vm_compute. reflexivity.
Defined.

(** [in_trade_window_spec] at the last instant of the window: 09:01:00 is
    admitted. *)
Lemma in_trade_window_spec_witness :
  in_trade_window narrow_cfg nine_oh_one = true.
Proof.
  refine (proj2 (proj1 (@in_trade_window_spec narrow_cfg nine_oh_one _ _ _)
                       eq_refl) _).
  - unfold valid_time. cbn. lia.
  - unfold valid_time. cbn. lia.
  - unfold valid_time. cbn. lia.
  - vm_compute. split; discriminate.
Defined.

(** C9, counterexample: the value "0" under [magic] is present and parses to
    the float 0.0, whose integer is 0, yet the signal built from it carries
    the magic number 2026. *)
Lemma magic_zero_counterexample :
  dict_get zero_magic_payload (lit "magic") = Ok (PStr (lit "0"))
  /\ safe_float (PStr (lit "0")) = Some (S754_zero false)
  /\ int_of_float (S754_zero false) = Ok 0
  /\ exists sig,
       build_signal zero_magic_payload ten_oclock uuid8 = Ok sig
       /\ s_magic sig = 2026.
Proof.
  repeat split; try reflexivity.
  eexists. split; [vm_compute; reflexivity | reflexivity].
Qed.

(** [magic_number_amended] at the value "12.7": the magic number is 12. *)
Lemma magic_number_amended_witness :
  exists sig,
    build_signal fraction_magic_payload ten_oclock uuid8 = Ok sig
    /\ Ok 12 = Ok (s_magic sig).
Proof.
  eexists. split; [vm_compute; reflexivity|].
  refine (proj1 (@magic_number_amended ascii_runtime fraction_magic_payload
                   ten_oclock uuid8 _ (PStr (lit "12.7")) _ _)
                (S754_finite false 7149464408450662 (-49)) _ _ _).
  - vm_compute. reflexivity.
  - reflexivity.
  - reflexivity.
  - vm_compute. reflexivity.
  - reflexivity.
Defined.

(** [overlapping_pulls_deliver_twice] after the accepted buy: one pull as
    text, one as JSON, both carrying the signal. *)
Lemma overlapping_pulls_deliver_twice_witness :
  run_schedule open_cfg [0; 1; 0; 1]%nat
    [Arrived None good_secret txt; Arrived None good_secret None] after_buy
  = ([Returned (PullText
        (lit "OK|1b9d6bcd|BUY|eurusd|0.1|||2026-03-07T10:00:00-04:00|2026|TV"));
      Returned (PullJson (option_map val (pending after_buy)))],
     clear_pending after_buy).
Proof.
  refine (eq_trans
            (@overlapping_pulls_deliver_twice ascii_runtime open_cfg
               None good_secret txt None good_secret None after_buy
               {| addr := 0; val := _ |} _ _ _) _).
  - vm_compute. reflexivity.
  - vm_compute. reflexivity.
  - vm_compute. reflexivity.
  - vm_compute. reflexivity.
Defined.

(** [pipe_in_id_breaks_fields] at the signal built from the id [a|b]. *)
Lemma pipe_in_id_breaks_fields_witness :
  (10 < List.length (split_on pipe (line_text piped_signal)))%nat
  /\ nth 1 (split_on pipe (line_text piped_signal)) [] = lit "a"
  /\ nth 2 (split_on pipe (line_text piped_signal)) [] = lit "b"
  /\ nth 1 (split_on pipe (line_text piped_signal)) [] <> s_id piped_signal.
Proof.
  apply (@pipe_in_id_breaks_fields ascii_runtime piped_signal).
  vm_compute. reflexivity.
Defined.

(** The failing request, end to end: the id [a|b] arrives in a JSON body, is
    stored, and is pulled as a line of eleven fields. *)
Example piped_id_end_to_end :
  fst (serve open_cfg
         [ReqWebhook piped_id_payload None None ten_oclock ten_oclock uuid8;
          ReqPull None good_secret txt] initial_state)
  = [Stored (lit "a|b") (lit "2026-03-07T10:00:00-04:00");
     PullText (lit "OK|a|b|BUY|XAUUSD|0.01|||2026-03-07T10:00:00-04:00|2026|TV")]
  /\ map (fun f => List.length f)
         (split_on pipe
            (lit "OK|a|b|BUY|XAUUSD|0.01|||2026-03-07T10:00:00-04:00|2026|TV"))
     = [2; 1; 1; 3; 6; 4; 0; 0; 25; 4; 2]%nat.
Proof. split; vm_compute; reflexivity. Qed.

(** The scenario of the pipe dialect: SELL, XAUUSD, 0.02 lots, stop 1900,
    target 1950. *)
Example scenario_pipe_dialect :
  s_action sell_signal = lit "SELL"
  /\ s_symbol sell_signal = lit "XAUUSD"
  /\ float_repr (s_lots sell_signal) = lit "0.02"
  /\ option_map float_repr (s_sl sell_signal) = Some (lit "1900.0")
  /\ option_map float_repr (s_tp sell_signal) = Some (lit "1950.0")
  /\ line_text sell_signal
     = lit "OK|1b9d6bcd|SELL|XAUUSD|0.02|1900.0|1950.0|2026-03-07T10:00:00-04:00|2026|TV".
Proof. repeat split; vm_compute; reflexivity. Qed.

(** [check_secret_spec] with no secret configured, and with [abc123]
    configured and sent, padded, in the header. *)
Lemma check_secret_spec_witness :
  check_secret unset_cfg (PStr []) (PStr []) (PInt 7) = Ok false
  /\ check_secret open_cfg (of_opt (Some [])) (of_opt (Some (lit " abc123 ")))
                  (of_opt None) = Ok true.
Proof.
  split.
  - apply (proj1 (@check_secret_spec unset_cfg)). reflexivity.
  - apply (proj1 (proj2 (@check_secret_spec open_cfg))).
    + discriminate.
    + exists (lit " abc123 "). split; reflexivity.
Defined.

(** [normalize_action_spec] at three spellings. *)
Lemma normalize_action_spec_witness :
  normalize_action (of_opt (Some (lit " Long "))) = Ok (lit "BUY")
  /\ normalize_action (of_opt (Some (lit "short"))) = Ok (lit "SELL")
  /\ normalize_action (of_opt (Some (lit "hold"))) = Ok [].
Proof.
  split; [|split].
  - apply (proj1 (@normalize_action_spec ascii_runtime (Some (lit " Long ")))).
    right. reflexivity.
  - apply (proj1 (proj2 (@normalize_action_spec ascii_runtime
                           (Some (lit "short"))))).
    right. reflexivity.
  - apply (proj1 (proj2 (proj2 (@normalize_action_spec ascii_runtime
                                  (Some (lit "hold")))))); discriminate.
Defined.

(** [enforcement_only_on_1] at [ENFORCE_HOURS = "0"]: ten o'clock passes a
    window that closed at 09:01. *)
Lemma enforcement_only_on_1_witness :
  in_trade_window (with_window open_cfg (mk_time 9 0 0 0) (mk_time 9 1 0 0))
                  ten_oclock = true.
Proof.
  apply (proj1 (@enforcement_only_on_1 open_cfg)). discriminate.
Defined.

(** A decision procedure for [pipe_free]. *)
Lemma pipe_free_check (s : str) :
  forallb (fun c => negb (N.eqb c pipe)) s = true -> pipe_free s.
Proof.
  intros H I. rewrite forallb_forall in H. specialize (H pipe I).
  rewrite N.eqb_refl in H. discriminate H.
Qed.

(** [line_text_fields] at the signal of the pipe dialect. *)
Lemma line_text_fields_witness :
  split_on pipe (line_text sell_signal)
  = [lit "OK"; lit "1b9d6bcd"; lit "SELL"; lit "XAUUSD"; lit "0.02";
     lit "1900.0"; lit "1950.0"; lit "2026-03-07T10:00:00-04:00"; lit "2026";
     lit "TV"].
Proof.
  refine (eq_trans
            (proj1 (@line_text_fields ascii_runtime sell_signal _ _ _ _ _ _)) _).
  - apply pipe_free_check. vm_compute. reflexivity.
  - apply pipe_free_check. vm_compute. reflexivity.
  - apply pipe_free_check. vm_compute. reflexivity.
  - apply pipe_free_check. vm_compute. reflexivity.
  - apply pipe_free_check. vm_compute. reflexivity.
  - intros f [E|E]; vm_compute in E; injection E as <-;
      (split; [apply pipe_free_check; vm_compute; reflexivity
              | vm_compute; discriminate]).
  - vm_compute. reflexivity.
Defined.


(** [webhook_error_keeps_store] at a call the unset secret turns away. *)
Lemma webhook_error_keeps_store_witness :
  snd (webhook unset_cfg buy_payload None None ten_oclock ten_oclock uuid8
               after_buy) = after_buy.
Proof.
  apply (@webhook_error_keeps_store ascii_runtime unset_cfg).
  vm_compute. discriminate.
Defined.


(** The value "inf" under [magic]: [int] raises and the request ends in a
    server error, with the store untouched. *)
Example magic_infinity_raises :
  build_signal (PDict [field "action" "buy"; field "magic" "inf"])
               ten_oclock uuid8 = Raise OverflowError
  /\ webhook open_cfg
       (PDict [field "secret" "abc123"; field "action" "buy";
               field "magic" "inf"])
       None None ten_oclock ten_oclock uuid8 after_buy
     = (ServerError OverflowError, after_buy).
Proof. split; vm_compute; reflexivity. Qed.

(** * The rest of the program

    The decoder of request bodies, the fields of a built signal, the
    startup configuration and the behaviour of the store under sequences and
    overlaps of requests. *)

(** ** Trimming *)

Lemma str_eqb_reflect (a b : str) : reflect (a = b) (str_eqb a b).
Proof.
  destruct (str_eqb a b) eqn:E; constructor.
  - apply str_eqb_spec; exact E.
  - apply str_eqb_false; exact E.
Qed.

Lemma lstrip_head (s : str) :
  match lstrip s with
  | c :: _ => isspace c = false
  | [] => True
  end.
Proof.
  induction s as [|c s IH]; cbn [lstrip]; [exact I|].
  destruct (isspace c) eqn:E; [exact IH | exact E].
Qed.

Lemma lstrip_id (s : str) :
  match s with
  | c :: _ => isspace c = false
  | [] => True
  end ->
  lstrip s = s.
Proof. destruct s as [|c s]; cbn [lstrip]; [reflexivity|]. intros ->; reflexivity. Qed.

Lemma lstrip_idem (s : str) : lstrip (lstrip s) = lstrip s.
Proof. apply lstrip_id, lstrip_head. Qed.

Lemma lstrip_length (s : str) : (List.length (lstrip s) <= List.length s)%nat.
Proof.
  induction s as [|c s IH]; cbn [lstrip]; [apply le_n|].
  destruct (isspace c); cbn [List.length]; lia.
Qed.

Lemma lstrip_blank (s : str) : blank s = true -> lstrip s = [].
Proof.
  unfold blank. induction s as [|c s IH]; cbn [lstrip forallb]; [reflexivity|].
  rewrite andb_true_iff. intros [-> H]. exact (IH H).
Qed.

Lemma rstrip_idem (s : str) : rstrip (rstrip s) = rstrip s.
Proof. unfold rstrip. rewrite rev_involutive, lstrip_idem. reflexivity. Qed.

(** Trimming on the right leaves a prefix. *)
Lemma rstrip_prefix (s : str) : exists ws, s = rstrip s ++ ws.
Proof.
  assert (L : forall t : str, exists ws, t = ws ++ lstrip t).
  { induction t as [|c t [ws IH]]; cbn [lstrip]; [exists []; reflexivity|].
    destruct (isspace c).
    - exists (c :: ws). cbn. f_equal. exact IH.
    - exists []. reflexivity. }
  destruct (L (rev s)) as [ws E]. exists (rev ws). unfold rstrip.
  rewrite <- rev_app_distr, <- E, rev_involutive. reflexivity.
Qed.

Lemma lstrip_rstrip (t : str) : lstrip t = t -> lstrip (rstrip t) = rstrip t.
Proof.
  intros F. destruct (rstrip_prefix t) as [ws E].
  destruct (rstrip t) as [|c r]; [reflexivity|].
  apply lstrip_id. rewrite E in F. cbn [app lstrip] in F.
  destruct (isspace c); [|reflexivity].
  pose proof (lstrip_length (r ++ ws)) as L. rewrite F in L.
  cbn [List.length] in L. lia.
Qed.

(** [s.strip().strip() == s.strip()] *)
Lemma strip_idem (s : str) : strip (strip s) = strip s.
Proof.
  unfold strip. rewrite (lstrip_rstrip (lstrip s) (lstrip_idem s)).
  apply rstrip_idem.
Qed.

Lemma strip_blank (s : str) : blank s = true -> strip s = [].
Proof. intros B. unfold strip. rewrite (lstrip_blank s B). reflexivity. Qed.

(** ** Dicts *)

Lemma assoc_dict_set (k k' : str) (v : pyval) (d : list (str * pyval)) :
  assoc k' (dict_set k v d) = if str_eqb k' k then Some v else assoc k' d.
Proof.
  induction d as [|[k1 v1] d IH]; cbn [dict_set assoc]; [reflexivity|].
  destruct (str_eqb_reflect k k1) as [->|N1]; cbn [assoc].
  - destruct (str_eqb k' k1); reflexivity.
  - rewrite IH.
    destruct (str_eqb_reflect k' k1) as [->|N2]; [|reflexivity].
    destruct (str_eqb_reflect k1 k) as [E|_]; [congruence | reflexivity].
Qed.

Lemma dict_set_text_mapping (k s : str) (d : list (str * pyval)) :
  text_mapping d -> text_mapping (dict_set k (PStr s) d).
Proof.
  unfold text_mapping. induction 1 as [|[k1 v1] d H F IH]; cbn [dict_set].
  - repeat constructor.
  - destruct (str_eqb k k1); constructor; auto.
Qed.

(** A lookup in a text mapping finds text or nothing. *)
Lemma text_mapping_assoc (d : list (str * pyval)) (k : str) :
  text_mapping d ->
  match assoc k d with
  | Some v => is_text v = true
  | None => True
  end.
Proof.
  unfold text_mapping. induction 1 as [|[k1 v1] d H F IH]; cbn [assoc]; [exact I|].
  destruct (str_eqb k k1); [exact H | exact IH].
Qed.

(** ** The request decoder *)

Section DecoderFacts.
Context {R : Runtime} {J : JsonDecoder}.

Lemma contains_char_In (c : codepoint) (s : str) :
  contains [c] s = true -> In c s.
Proof.
  induction s as [|x s IH]; cbn [contains is_prefix]; [discriminate|].
  rewrite orb_true_iff, andb_true_r, N.eqb_eq.
  intros [->|H]; [left; reflexivity | right; exact (IH H)].
Qed.

(** A text with the separator splits into two fields at least. *)
Lemma split_on_two (sep : codepoint) (s : str) :
  In sep s -> (2 <= List.length (split_on sep s))%nat.
Proof.
  intros I. rewrite split_on_length.
  apply (count_occ_In N.eq_dec) in I. lia.
Qed.

Lemma assoc_set_if_present (k : str) (i : nat) (key : string)
    (parts : list str) (d : list (str * pyval)) :
  assoc k (set_if_present i key parts d)
  = match nth_error parts i with
    | Some p => if str_eqb k (lit key) then Some (PStr p) else assoc k d
    | None => assoc k d
    end.
Proof.
  unfold set_if_present. destruct (nth_error parts i); [|reflexivity].
  apply assoc_dict_set.
Qed.

(** When the body is not sent as JSON, is not blank, is not read as a JSON
    object and passes the test of line 135, it is decoded by position. *)
Lemma parse_piped (text : str) :
  strip text <> [] ->
  (startswith 123%N (strip text) && endswith 125%N (strip text) = true ->
   json_loads (strip text) = None) ->
  looks_piped (strip text) = true ->
  parse_body_to_dict false text = PDict (pipe_dict (strip text)).
Proof.
  intros NE NJ P. unfold parse_body_to_dict. cbv zeta.
  apply str_eqb_false in NE. rewrite NE.
  destruct (startswith 123%N (strip text) && endswith 125%N (strip text)).
  - rewrite (NJ eq_refl), P. reflexivity.
  - rewrite P. reflexivity.
Qed.

(** What the positional mapping holds under a key. *)
Lemma pipe_dict_lookup (body k : str) :
  assoc k (pipe_dict body)
  = let part i := option_map (fun p => PStr (strip p))
                             (nth_error (split_on pipe body) i) in
    if str_eqb k (lit "tp") then part 4%nat
    else if str_eqb k (lit "sl") then part 3%nat
    else if str_eqb k (lit "lots") then part 2%nat
    else if str_eqb k (lit "symbol") then part 1%nat
    else if str_eqb k (lit "action") then part 0%nat
    else None.
Proof.
  unfold pipe_dict. cbv zeta.
  repeat rewrite assoc_set_if_present. repeat rewrite nth_error_map.
  cbn [assoc].
  destruct (str_eqb_reflect k (lit "tp")) as [->|N4];
    [cbn -[nth_error strip split_on];
     repeat (destruct (nth_error _ _); cbn [option_map]); reflexivity|].
  destruct (str_eqb_reflect k (lit "sl")) as [->|N3];
    [cbn -[nth_error strip split_on];
     repeat (destruct (nth_error _ _); cbn [option_map]); reflexivity|].
  destruct (str_eqb_reflect k (lit "lots")) as [->|N2];
    [cbn -[nth_error strip split_on];
     repeat (destruct (nth_error _ _); cbn [option_map]); reflexivity|].
  destruct (str_eqb_reflect k (lit "symbol")) as [->|N1];
    [cbn -[nth_error strip split_on];
     repeat (destruct (nth_error _ _); cbn [option_map]); reflexivity|].
  destruct (str_eqb_reflect k (lit "action")) as [->|N0];
    [cbn -[nth_error strip split_on];
     repeat (destruct (nth_error _ _); cbn [option_map]); reflexivity|].
  repeat (destruct (nth_error _ _); cbn [option_map]); reflexivity.
Qed.

Lemma pipe_dict_text_mapping (body : str) : text_mapping (pipe_dict body).
Proof.
  unfold pipe_dict, set_if_present. cbv zeta.
  repeat match goal with
         | |- context [nth_error ?l ?i] => destruct (nth_error l i)
         end;
    repeat apply dict_set_text_mapping; constructor.
Qed.

End DecoderFacts.

Section DecodedRequests.
Context {R : Runtime} {J : JsonDecoder}.
Variable cfg : Config.

(** The pipe dialect, field by field: the body is cut at every pipe, the
    pieces are trimmed, and the first five are filed under [action],
    [symbol], [lots], [sl] and [tp]; [action] and [symbol] are always
    there, and no other key is. *)
Theorem decode_pipe_dialect (text : str) :
  strip text <> [] ->
  (startswith 123%N (strip text) && endswith 125%N (strip text) = true ->
   json_loads (strip text) = None) ->
  looks_piped (strip text) = true ->
  let data := parse_body_to_dict false text in
  let part i := match nth_error (split_on pipe (strip text)) i with
                | Some p => PStr (strip p)
                | None => PNone
                end in
  (2 <= List.length (split_on pipe (strip text)))%nat
  /\ dict_get data (lit "action") = Ok (part 0%nat)
  /\ dict_get data (lit "symbol") = Ok (part 1%nat)
  /\ dict_get data (lit "lots") = Ok (part 2%nat)
  /\ dict_get data (lit "sl") = Ok (part 3%nat)
  /\ dict_get data (lit "tp") = Ok (part 4%nat)
  /\ (forall k : str,
        ~ In k (map lit ["action"; "symbol"; "lots"; "sl"; "tp"]%string) ->
        dict_get data k = Ok PNone).
Proof.
  intros NE NJ P. cbv zeta. rewrite (parse_piped text NE NJ P).
  cbn [dict_get]. repeat rewrite pipe_dict_lookup. split.
  - apply split_on_two, contains_char_In.
    unfold looks_piped in P. apply andb_true_iff in P. apply P.
  - repeat split;
      try (cbn -[nth_error strip split_on];
           destruct (nth_error _ _); reflexivity).
    intros k NI. rewrite pipe_dict_lookup. cbv zeta.
    destruct (str_eqb_reflect k (lit "tp")) as [->|_];
      [exfalso; apply NI; cbn; tauto|].
    destruct (str_eqb_reflect k (lit "sl")) as [->|_];
      [exfalso; apply NI; cbn; tauto|].
    destruct (str_eqb_reflect k (lit "lots")) as [->|_];
      [exfalso; apply NI; cbn; tauto|].
    destruct (str_eqb_reflect k (lit "symbol")) as [->|_];
      [exfalso; apply NI; cbn; tauto|].
    destruct (str_eqb_reflect k (lit "action")) as [->|_];
      [exfalso; apply NI; cbn; tauto|].
    reflexivity.
Qed.

(** A body in the pipe dialect carries no secret: the call is authenticated
    by the header or the query alone, and with neither it is turned away
    whatever the body says. *)
Theorem pipe_dialect_has_no_secret (text : str) (h q : option str)
    (now now_sig : datetime) (uuid8 : str) (st : State) :
  strip text <> [] ->
  (startswith 123%N (strip text) && endswith 125%N (strip text) = true ->
   json_loads (strip text) = None) ->
  looks_piped (strip text) = true ->
  webhook_auth cfg (parse_body_to_dict false text) h q
  = check_secret cfg PNone (of_opt h) (of_opt q)
  /\ webhook_request cfg false text None None now now_sig uuid8 st
     = (Unauthorized, st).
Proof.
  intros NE NJ P.
  assert (A : forall h q, webhook_auth cfg (parse_body_to_dict false text) h q
                          = check_secret cfg PNone (of_opt h) (of_opt q)).
  { intros h' q'. rewrite (parse_piped text NE NJ P). unfold webhook_auth.
    cbn [dict_get bind]. repeat rewrite pipe_dict_lookup. reflexivity. }
  split; [apply A|].
  unfold webhook_request, webhook. rewrite A.
  unfold check_secret. cbn.
  destruct (SECRET cfg); reflexivity.
Qed.

Lemma split_once_absent (sep : codepoint) (s : str) :
  ~ In sep s -> split_once sep s = None.
Proof.
  induction s as [|c s IH]; cbn [split_once]; intros N; [reflexivity|].
  destruct (N.eqb_spec c sep) as [->|_]; [exfalso; apply N; left; reflexivity|].
  rewrite IH; [reflexivity|]. intros I; apply N; right; exact I.
Qed.

(** The lines of a text hold code points of the text only. *)
Lemma splitlines_from_In (s cur line : str) (c : codepoint) :
  In line (splitlines_from cur s) -> In c line -> In c cur \/ In c s.
Proof.
  revert cur. induction s as [|x s IH]; intros cur; cbn [splitlines_from].
  - destruct cur as [|y cur]; [intros []|].
    intros [<-|[]] I. left. apply in_rev. exact I.
  - assert (Cut : In line (rev cur :: splitlines_from [] s) -> In c line ->
                  In c cur \/ In c (x :: s)).
    { intros [<-|L] I; [left; apply in_rev; exact I|].
      destruct (IH [] L I) as [[]|H]. right; right; exact H. }
    destruct (N.eqb x 13).
    + destruct s as [|y s']; [exact Cut|].
      destruct y as [|p]; [exact Cut|].
      destruct (Pos.eq_dec p 10) as [->|NE].
      * intros [<-|L] I; [left; apply in_rev; exact I|].
        assert (L' : In line (splitlines_from [] (10%N :: s'))).
        { cbn [splitlines_from]. cbn. right. exact L. }
        destruct (IH [] L' I) as [[]|H]. right; right; exact H.
      * assert (E : splitlines_from cur (x :: N.pos p :: s')
                    = splitlines_from cur (x :: N.pos p :: s')) by reflexivity.
        destruct p as [p|p|]; try exact Cut;
          destruct p as [p|p|]; try exact Cut;
          destruct p as [p|p|]; try exact Cut;
          destruct p as [p|p|]; try exact Cut.
        contradiction NE; reflexivity.
    + destruct (is_linebreak x); [exact Cut|].
      intros L I. destruct (IH (x :: cur) L I) as [[<-|H]|H].
      * right; left; reflexivity.
      * left; exact H.
      * right; right; exact H.
Qed.

(** The key=value dialect, key by key: when the body is not sent as JSON,
    is not blank, is not read as a JSON object and fails the test of line
    135, every key holds the trimmed value of the last line that names it
    before its first [=]; lines without [=] do not count, and every value
    is text. *)
Theorem decode_key_value (text : str) :
  strip text <> [] ->
  (startswith 123%N (strip text) && endswith 125%N (strip text) = true ->
   json_loads (strip text) = None) ->
  looks_piped (strip text) = false ->
  (forall k : str,
     dict_get (parse_body_to_dict false text) k
     = Ok (match last_binding k (splitlines (strip text)) with
           | Some v => PStr v
           | None => PNone
           end))
  /\ exists d, parse_body_to_dict false text = PDict d /\ text_mapping d.
Proof.
  intros NE NJ P.
  assert (E : parse_body_to_dict false text = PDict (kv_dict (strip text))).
  { unfold parse_body_to_dict. cbv zeta.
    apply str_eqb_false in NE. rewrite NE.
    destruct (startswith 123%N (strip text) && endswith 125%N (strip text)).
    - rewrite (NJ eq_refl), P. reflexivity.
    - rewrite P. reflexivity. }
  rewrite E. unfold kv_dict.
  assert (F : forall lines d k,
             assoc k (fold_left kv_line lines d)
             = match last_binding k lines with
               | Some v => Some (PStr v)
               | None => assoc k d
               end).
  { induction lines as [|line lines IH]; intros d k; cbn [fold_left last_binding];
      [reflexivity|].
    rewrite IH. destruct (last_binding k lines); [reflexivity|].
    unfold kv_line. destruct (split_once 61%N line) as [[k' v]|]; [|reflexivity].
    rewrite assoc_dict_set. destruct (str_eqb k (strip k')); reflexivity. }
  assert (T : forall lines d, text_mapping d ->
                              text_mapping (fold_left kv_line lines d)).
  { induction lines as [|line lines IH]; intros d H; cbn [fold_left]; [exact H|].
    apply IH. unfold kv_line.
    destruct (split_once 61%N line) as [[k' v]|]; [|exact H].
    apply dict_set_text_mapping. exact H. }
  split.
  - intros k. cbn [dict_get]. rewrite F. cbn [assoc].
    destruct (last_binding k (splitlines (strip text))); reflexivity.
  - eexists. split; [reflexivity|]. apply T. constructor.
Qed.

End DecodedRequests.

Section EmptyAndBrokenBodies.
Context {R : Runtime} {J : JsonDecoder}.
Variable cfg : Config.

(** The signal built from the empty mapping: every default, and no
    action. *)
Lemma build_signal_empty (now : datetime) (uuid8 : str) :
  build_signal (PDict []) now uuid8
  = Ok {| s_id := strip uuid8;
          s_ts := isoformat now;
          s_action := [];
          s_symbol := lit "XAUUSD";
          s_lots := float_0_01;
          s_sl := None;
          s_tp := None;
          s_comment := lit "TV";
          s_magic := 2026;
          s_raw := PDict [] |}.
Proof. reflexivity. Qed.

(** A call whose body decodes to the empty mapping is answered 401, 403 or
    400, in this order of checks, and stores nothing. *)
Lemma webhook_empty_mapping (h q : option str) (now now_sig : datetime)
    (uuid8 : str) (st : State) :
  webhook cfg (PDict []) h q now now_sig uuid8 st
  = (match check_secret cfg PNone (of_opt h) (of_opt q) with
     | Ok true =>
         if in_trade_window cfg now then MissingAction
         else OutsideTradeWindow (isoformat now) (START_HHMM cfg) (END_HHMM cfg)
     | _ => Unauthorized
     end, st).
Proof.
  unfold webhook.
  change (webhook_auth cfg (PDict []) h q)
    with (check_secret cfg PNone (of_opt h) (of_opt q)).
  change PNone with (of_opt None) at 1 2.
  rewrite check_secret_text.
  destruct (if str_eqb (SECRET cfg) [] then false else _); [|reflexivity].
  destruct (in_trade_window cfg now); reflexivity.
Qed.

Lemma kv_dict_no_equals (body : str) : ~ In 61%N body -> kv_dict body = [].
Proof.
  intros N. unfold kv_dict, splitlines.
  assert (F : forall lines d,
             (forall l, In l lines -> ~ In 61%N l) ->
             fold_left kv_line lines d = d).
  { induction lines as [|l lines IH]; intros d H; cbn [fold_left]; [reflexivity|].
    unfold kv_line at 2. rewrite (split_once_absent 61%N l (H l (or_introl eq_refl))).
    apply IH. intros l' I. apply H. right. exact I. }
  apply F. intros l I E.
  destruct (splitlines_from_In body [] l 61%N I E) as [[]|H]. exact (N H).
Qed.

(** The bodies the decoder gives up on.  A body sent as JSON that does not
    parse, or parses to a false value; a blank body; a body that is neither
    JSON nor piped and holds no [=]: each decodes to the empty mapping, and
    the call is answered 401, 403 or 400 and stores nothing. *)
Theorem undecodable_body_rejected (is_json : bool) (text : str)
    (h q : option str) (now now_sig : datetime) (uuid8 : str) (st : State) :
  (is_json = true /\ json_loads text = None)
  \/ (is_json = true /\ exists v, json_loads text = Some v /\ truthy v = false)
  \/ (is_json = false /\ blank text = true)
  \/ (is_json = false
      /\ (startswith 123%N (strip text) && endswith 125%N (strip text) = true ->
          json_loads (strip text) = None)
      /\ looks_piped (strip text) = false
      /\ ~ In 61%N (strip text)) ->
  parse_body_to_dict is_json text = PDict []
  /\ snd (webhook_request cfg is_json text h q now now_sig uuid8 st) = st
  /\ (let r := fst (webhook_request cfg is_json text h q now now_sig uuid8 st) in
      r = Unauthorized
      \/ r = OutsideTradeWindow (isoformat now) (START_HHMM cfg) (END_HHMM cfg)
      \/ r = MissingAction).
Proof.
  intros H.
  assert (E : parse_body_to_dict is_json text = PDict []).
  { unfold parse_body_to_dict. cbv zeta.
    destruct H as [[-> L]|[[-> (v & L & T)]|[[-> B]|(-> & NJ & P & NE)]]].
    - rewrite L. reflexivity.
    - rewrite L. unfold py_or. rewrite T. reflexivity.
    - rewrite (strip_blank text B). reflexivity.
    - destruct (str_eqb (strip text) []); [reflexivity|].
      destruct (startswith 123%N (strip text) && endswith 125%N (strip text)).
      + rewrite (NJ eq_refl), P, (kv_dict_no_equals _ NE). reflexivity.
      + rewrite P, (kv_dict_no_equals _ NE). reflexivity. }
  split; [exact E|]. unfold webhook_request. rewrite E, webhook_empty_mapping.
  cbn [fst snd]. split; [reflexivity|].
  destruct (check_secret cfg PNone (of_opt h) (of_opt q)) as [[|]|e]; auto.
  destruct (in_trade_window cfg now); auto.
Qed.

(** A body sent as JSON that parses to a true value other than an object (an
    array, a number, a string, [true]) makes line 176 raise: the call is
    answered with a server error before the secret is looked at, whoever
    sends it, and the store is left as it was. *)
Theorem non_object_json_is_server_error (text : str) (v : pyval)
    (h q : option str) (now now_sig : datetime) (uuid8 : str) (st : State) :
  json_loads text = Some v ->
  truthy v = true ->
  is_dict v = false ->
  webhook_request cfg true text h q now now_sig uuid8 st
  = (ServerError AttributeError, st).
Proof.
  intros L T D. unfold webhook_request, parse_body_to_dict.
  rewrite L. unfold py_or. rewrite T.
  unfold webhook, webhook_auth. destruct v; try discriminate D; reflexivity.
Qed.

End EmptyAndBrokenBodies.

(** ** The fields of a built signal *)

Section BuiltSignals.
Context {R : Runtime}.

(** [build_signal] on a dict, with the lookups done. *)
Lemma build_signal_dict (d : list (str * pyval)) (now : datetime) (uuid8 : str) :
  build_signal (PDict d) now uuid8
  = (action <- normalize_action
                 (py_or (field_of d "action")
                        (py_or (field_of d "side") (field_of d "signal"))) ;;
     symbol <- py_strip (py_or (field_of d "symbol")
                               (py_or (field_of d "ticker") (PStr (lit "XAUUSD")))) ;;
     comment <- py_strip (py_or (field_of d "comment")
                                (py_or (field_of d "cmt") (PStr (lit "TV")))) ;;
     magic <- magic_of (field_of d "magic") ;;
     sig_id <- py_strip (py_or (field_of d "id")
                               (py_or (field_of d "signal_id") (PStr uuid8))) ;;
     Ok {| s_id := sig_id;
           s_ts := isoformat now;
           s_action := action;
           s_symbol := symbol;
           s_lots := float_or
                       (safe_float
                          (py_or (field_of d "lots")
                                 (py_or (field_of d "lot")
                                        (py_or (field_of d "qty")
                                               (PFloat float_0_01)))))
                       float_0_01;
           s_sl := safe_float (field_of d "sl");
           s_tp := safe_float (field_of d "tp");
           s_comment := comment;
           s_magic := magic;
           s_raw := PDict d |}).
Proof. reflexivity. Qed.

(** A built signal, read backwards. *)
Lemma build_signal_inv (data : pyval) (now : datetime) (uuid8 : str)
    (sig : Signal) :
  build_signal data now uuid8 = Ok sig ->
  exists d,
    data = PDict d
    /\ normalize_action
         (py_or (field_of d "action")
                (py_or (field_of d "side") (field_of d "signal")))
       = Ok (s_action sig)
    /\ py_strip (py_or (field_of d "symbol")
                       (py_or (field_of d "ticker") (PStr (lit "XAUUSD"))))
       = Ok (s_symbol sig)
    /\ py_strip (py_or (field_of d "comment")
                       (py_or (field_of d "cmt") (PStr (lit "TV"))))
       = Ok (s_comment sig)
    /\ magic_of (field_of d "magic") = Ok (s_magic sig)
    /\ py_strip (py_or (field_of d "id")
                       (py_or (field_of d "signal_id") (PStr uuid8)))
       = Ok (s_id sig)
    /\ s_lots sig
       = float_or (safe_float
                     (py_or (field_of d "lots")
                            (py_or (field_of d "lot")
                                   (py_or (field_of d "qty") (PFloat float_0_01)))))
                  float_0_01
    /\ s_sl sig = safe_float (field_of d "sl")
    /\ s_tp sig = safe_float (field_of d "tp")
    /\ s_ts sig = isoformat now
    /\ s_raw sig = data.
Proof.
  destruct data as [| | | | | |d]; try discriminate.
  rewrite build_signal_dict. intros B. exists d.
  repeat match type of B with
         | bind ?x _ = Ok _ =>
             destruct x eqn:?; cbn [bind] in B; [|discriminate B]
         end.
  injection B as <-. cbn. repeat split; reflexivity.
Qed.

(** Whatever it is given, [normalize_action] raises or returns one of its
    three markers. *)
Lemma normalize_action_markers (a : pyval) (x : str) :
  normalize_action a = Ok x -> x = lit "BUY" \/ x = lit "SELL" \/ x = [].
Proof.
  unfold normalize_action.
  destruct (py_strip (py_or a (PStr []))) as [s|e]; cbn [bind]; [|discriminate].
  destruct (str_eqb _ (lit "BUY") || str_eqb _ (lit "LONG")).
  - intros H; injection H as <-; auto.
  - destruct (str_eqb _ (lit "SELL") || str_eqb _ (lit "SHORT"));
      intros H; injection H as <-; auto.
Qed.

Lemma py_strip_trimmed (v : pyval) (x : str) : py_strip v = Ok x -> strip x = x.
Proof.
  destruct v; try discriminate. cbn. intros H; injection H as <-.
  apply strip_idem.
Qed.

Lemma float_or_truthy (f : option float) (d : float) :
  float_truthy d = true -> float_truthy (float_or f d) = true.
Proof.
  intros D. unfold float_or. destruct f as [x|]; [|exact D].
  destruct (float_truthy x) eqn:E; [exact E | exact D].
Qed.

Lemma build_signal_well_formed (data : pyval) (now : datetime) (uuid8 : str)
    (sig : Signal) :
  build_signal data now uuid8 = Ok sig -> well_formed sig.
Proof.
  intros B.
  destruct (build_signal_inv _ _ _ _ B)
    as (d & _ & A & Y & C & _ & I & L & _).
  unfold well_formed. repeat split.
  - exact (normalize_action_markers _ _ A).
  - rewrite L. apply float_or_truthy. reflexivity.
  - exact (py_strip_trimmed _ _ I).
  - exact (py_strip_trimmed _ _ Y).
  - exact (py_strip_trimmed _ _ C).
Qed.

End BuiltSignals.

Section StoredSignals.
Context {R : Runtime}.
Variable cfg : Config.

(** Every signal the store ever holds is well formed, has the action BUY or
    SELL, and lives at an address the allocator has handed out. *)
Theorem stored_signals_well_formed (st : State) :
  reachable cfg st ->
  forall o : obj,
    last st = Some o \/ pending st = Some o ->
    well_formed (val o)
    /\ (s_action (val o) = lit "BUY" \/ s_action (val o) = lit "SELL")
    /\ (addr o < next_addr st)%nat.
Proof.
  induction 1 as [|r st Re IH]; intros o H.
  - destruct H as [H|H]; discriminate H.
  - destruct r as [data h q now now_sig uuid8|h q|h q f|now]; cbn [handle] in H |- *.
    + pose proof (webhook_cases cfg data h q now now_sig uuid8 st) as W.
      destruct (webhook cfg data h q now now_sig uuid8 st) as [r st'].
      cbn [snd] in *.
      destruct W as [[-> _]|(sig & B & A & _ & _ & _ & ->)]; [exact (IH o H)|].
      cbn [last pending next_addr] in *.
      assert (E : o = {| addr := next_addr st; val := sig |})
        by (destruct H as [H|H]; congruence).
      subst o. cbn [val addr].
      pose proof (build_signal_well_formed _ _ _ _ B) as WF.
      split; [exact WF|]. split; [|lia].
      destruct WF as ([E|[E|E]] & _); auto. contradiction.
    + unfold latest in *.
      destruct (check_secret cfg PNone (of_opt h) (of_opt q)) as [[|]|e];
        exact (IH o H).
    + destruct (pull_effect cfg h q f st) as [E|E]; rewrite E in *.
      * exact (IH o H).
      * cbn [clear_pending last pending next_addr] in *.
        destruct H as [H|H]; [|discriminate H]. apply IH. left. exact H.
    + exact (IH o H).
Qed.

End StoredSignals.

Section FieldEdges.
Context {R : Runtime}.

(** A symbol, a comment or an id that is given as whitespace is a true
    value, so its default (XAUUSD, TV, a fresh uuid) is not taken, and
    trimming leaves the field empty. *)
Theorem blank_field_stays_empty (d : list (str * pyval)) (now : datetime)
    (uuid8 : str) (sig : Signal) (c : codepoint) (w : str) :
  build_signal (PDict d) now uuid8 = Ok sig ->
  blank (c :: w) = true ->
  (field_of d "symbol" = PStr (c :: w) -> s_symbol sig = [])
  /\ (field_of d "comment" = PStr (c :: w) -> s_comment sig = [])
  /\ (field_of d "id" = PStr (c :: w) -> s_id sig = []).
Proof.
  intros B W.
  destruct (build_signal_inv _ _ _ _ B)
    as (d' & E & _ & Y & C & _ & I & _).
  injection E as <-. clear B.
  assert (S : forall b, py_strip (py_or (PStr (c :: w)) b) = Ok []).
  { intros b. unfold py_or. cbn [truthy str_eqb negb py_strip].
    rewrite (strip_blank _ W). reflexivity. }
  repeat split; intros F.
  - rewrite F, S in Y. congruence.
  - rewrite F, S in C. congruence.
  - rewrite F, S in I. congruence.
Qed.

Lemma text_or_none_field (d : list (str * pyval)) (k : string) :
  text_mapping d -> text_or_none (field_of d k).
Proof.
  intros T. unfold field_of, text_or_none.
  pose proof (text_mapping_assoc d (lit k) T) as H.
  destruct (assoc (lit k) d); auto.
Qed.

Lemma text_or_none_or (a b : pyval) :
  text_or_none a -> text_or_none b -> text_or_none (py_or a b).
Proof. intros A B. unfold py_or. destruct (truthy a); assumption. Qed.

Lemma py_or_assoc (a b c : pyval) : py_or a (py_or b c) = py_or (py_or a b) c.
Proof.
  unfold py_or. destruct (truthy a) eqn:E; [rewrite E|]; reflexivity.
Qed.

(** A chain of [or] that ends in text is text, and has [strip]. *)
Lemma py_strip_or_text (a : pyval) (s : str) :
  text_or_none a -> exists x, py_strip (py_or a (PStr s)) = Ok x.
Proof.
  intros [->|T]; [cbn; eauto|].
  destruct a; try discriminate T. unfold py_or.
  destruct (truthy (PStr s0)); cbn; eauto.
Qed.

(** A mapping of texts, as the pipe and key=value dialects produce, is
    built into a signal whenever its magic number is: nothing but line 97
    can raise. *)
Lemma build_signal_text_mapping (d : list (str * pyval)) (now : datetime)
    (uuid8 : str) (z : Z) :
  text_mapping d ->
  magic_of (field_of d "magic") = Ok z ->
  exists sig, build_signal (PDict d) now uuid8 = Ok sig.
Proof.
  intros T M. rewrite build_signal_dict.
  assert (F : forall k, text_or_none (field_of d k))
    by (intros k; apply text_or_none_field; exact T).
  assert (A : exists a, normalize_action
                          (py_or (field_of d "action")
                                 (py_or (field_of d "side") (field_of d "signal")))
                        = Ok a).
  { unfold normalize_action.
    destruct (py_strip_or_text
                (py_or (field_of d "action")
                       (py_or (field_of d "side") (field_of d "signal"))) [])
      as [x ->]; [repeat apply text_or_none_or; apply F|].
    cbn [bind].
    destruct (str_eqb _ (lit "BUY") || str_eqb _ (lit "LONG")); [eauto|].
    destruct (str_eqb _ (lit "SELL") || str_eqb _ (lit "SHORT")); eauto. }
  destruct A as [a ->]. cbn [bind].
  rewrite (py_or_assoc (field_of d "symbol")).
  destruct (py_strip_or_text
              (py_or (field_of d "symbol") (field_of d "ticker")) (lit "XAUUSD"))
    as [y ->]; [apply text_or_none_or; apply F|].
  cbn [bind].
  rewrite (py_or_assoc (field_of d "comment")).
  destruct (py_strip_or_text
              (py_or (field_of d "comment") (field_of d "cmt")) (lit "TV"))
    as [c ->]; [apply text_or_none_or; apply F|].
  cbn [bind]. rewrite M. cbn [bind].
  rewrite (py_or_assoc (field_of d "id")).
  destruct (py_strip_or_text
              (py_or (field_of d "id") (field_of d "signal_id")) uuid8)
    as [i ->]; [apply text_or_none_or; apply F|].
  cbn [bind]. eauto.
Qed.

End FieldEdges.

Section TextBodies.
Context {R : Runtime} {J : JsonDecoder}.
Variable cfg : Config.

(** A body that is not read as JSON decodes to a mapping of texts. *)
Lemma non_json_is_text_mapping (text : str) :
  (startswith 123%N (strip text) && endswith 125%N (strip text) = true ->
   json_loads (strip text) = None) ->
  exists d, parse_body_to_dict false text = PDict d /\ text_mapping d.
Proof.
  intros NJ. unfold parse_body_to_dict. cbv zeta.
  destruct (str_eqb (strip text) []); [exists []; split; [reflexivity|constructor]|].
  assert (E : (if startswith 123%N (strip text) && endswith 125%N (strip text)
               then json_loads (strip text) else None) = None)
    by (destruct (startswith 123%N (strip text) && endswith 125%N (strip text));
        [exact (NJ eq_refl) | reflexivity]).
  rewrite E. destruct (looks_piped (strip text)).
  - eexists. split; [reflexivity | apply pipe_dict_text_mapping].
  - eexists. split; [reflexivity|]. unfold kv_dict.
    generalize (splitlines (strip text)).
    assert (T : forall lines d, text_mapping d ->
                                text_mapping (fold_left kv_line lines d)).
    { induction lines as [|line lines IH]; intros d H; cbn [fold_left]; [exact H|].
      apply IH. unfold kv_line.
      destruct (split_once 61%N line) as [[k' v]|]; [|exact H].
      apply dict_set_text_mapping. exact H. }
    intros lines. apply T. constructor.
Qed.

(** On a mapping of texts the secret check never raises. *)
Lemma webhook_auth_text_mapping (d : list (str * pyval)) (h q : option str) :
  text_mapping d -> exists b, webhook_auth cfg (PDict d) h q = Ok b.
Proof.
  intros T. unfold webhook_auth. cbn [dict_get bind].
  change (match assoc (lit "secret") d with Some v => v | None => PNone end)
    with (field_of d "secret").
  change (match assoc (lit "key") d with Some v => v | None => PNone end)
    with (field_of d "key").
  change (match assoc (lit "token") d with Some v => v | None => PNone end)
    with (field_of d "token").
  unfold check_secret. destruct (str_eqb (SECRET cfg) []); [eauto|].
  rewrite (py_or_assoc (of_opt h)), py_or_assoc.
  destruct (py_strip_or_text
              (py_or (py_or (field_of d "secret")
                            (py_or (field_of d "key") (field_of d "token")))
                     (py_or (of_opt h) (of_opt q))) [])
    as [x ->]; [|cbn [bind]; eauto].
  assert (O : forall o, text_or_none (of_opt o))
    by (intros [s|]; [right|left]; reflexivity).
  repeat apply text_or_none_or; try apply O; apply text_or_none_field; exact T.
Qed.

(** A body that is not read as JSON is never answered with a server error,
    unless its [magic] coerces to an infinity or a NaN: the answer is 200,
    401, 403 or 400. *)
Theorem text_body_never_server_error (text : str) (h q : option str)
    (now now_sig : datetime) (uuid8 : str) (st : State) :
  (startswith 123%N (strip text) && endswith 125%N (strip text) = true ->
   json_loads (strip text) = None) ->
  (forall m, dict_get (parse_body_to_dict false text) (lit "magic") = Ok m ->
             exists z, magic_of m = Ok z) ->
  In (status_code (fst (webhook_request cfg false text h q now now_sig uuid8 st)))
     [200; 401; 403; 400].
Proof.
  intros NJ M. destruct (non_json_is_text_mapping text NJ) as (d & E & T).
  unfold webhook_request. rewrite E in *.
  destruct (M _ eq_refl) as [z Mz].
  destruct (build_signal_text_mapping d now_sig uuid8 z T Mz) as [sig B].
  destruct (webhook_auth_text_mapping d h q T) as [b A].
  unfold webhook. rewrite A, B.
  destruct b; [|cbn; tauto].
  destruct (in_trade_window cfg now); cbn [negb]; [|cbn; tauto].
  destruct (str_eqb (s_action sig) []); cbn; tauto.
Qed.

(** A true value that is not text, filed as the secret of the body (say a
    JSON number), makes the check raise when a secret is configured: the
    call is answered with a server error, even if the header carries the
    right secret. *)
Theorem non_text_body_secret_is_server_error (d : list (str * pyval))
    (h q : option str) (now now_sig : datetime) (uuid8 : str) (st : State) :
  SECRET cfg <> [] ->
  truthy (field_of d "secret") = true ->
  is_text (field_of d "secret") = false ->
  webhook cfg (PDict d) h q now now_sig uuid8 st
  = (ServerError AttributeError, st).
Proof.
  intros NE T NT. unfold webhook, webhook_auth. cbn [dict_get bind].
  change (match assoc (lit "secret") d with Some v => v | None => PNone end)
    with (field_of d "secret").
  unfold check_secret. apply str_eqb_false in NE. rewrite NE.
  assert (O : forall b, py_or (field_of d "secret") b = field_of d "secret")
    by (intros b; unfold py_or; rewrite T; reflexivity).
  rewrite !O.
  destruct (field_of d "secret"); try discriminate NT; reflexivity.
Qed.

(** A non-empty secret in the body settles the check alone: when it does
    not match, a right secret in the header or the query does not help. *)
Theorem body_secret_settles_check (c : codepoint) (s : str) (h q : pyval) :
  SECRET cfg <> [] ->
  check_secret cfg (PStr (c :: s)) h q = Ok (str_eqb (strip (c :: s)) (SECRET cfg)).
Proof.
  intros NE. unfold check_secret. apply str_eqb_false in NE. rewrite NE.
  reflexivity.
Qed.

End TextBodies.

(** ** Startup and the window *)

Section Startup.
Context {R : Runtime}.

(** [parse_hhmm] accepts exactly the texts with one colon whose two sides
    [int] reads as an hour in 0..23 and a minute in 0..59, and returns that
    time on the minute. *)
Theorem parse_hhmm_accepts (s : str) (t : time) :
  parse_hhmm s = Ok t
  <-> exists hh mm h m,
        split_on 58%N s = [hh; mm]
        /\ int_of_str hh = Some h /\ int_of_str mm = Some m
        /\ 0 <= h < 24 /\ 0 <= m < 60
        /\ t = mk_time h m 0 0.
Proof.
  unfold parse_hhmm, int_py, make_time. split.
  - destruct (split_on 58%N s) as [|hh [|mm [|x l]]]; try discriminate.
    destruct (int_of_str hh) as [h|] eqn:Eh; [|discriminate].
    destruct (int_of_str mm) as [m|] eqn:Em; [|discriminate].
    cbn [bind].
    destruct ((0 <=? h) && (h <? 24) && (0 <=? m) && (m <? 60)) eqn:E;
      [|discriminate].
    intros H; injection H as <-. exists hh, mm, h, m.
    repeat rewrite andb_true_iff in E.
    repeat split; try reflexivity; try assumption; lia.
  - intros (hh & mm & h & m & -> & -> & -> & Hh & Hm & ->). cbn [bind].
    replace ((0 <=? h) && (h <? 24) && (0 <=? m) && (m <? 60)) with true;
      [reflexivity|].
    symmetry. repeat rewrite andb_true_iff. repeat split; lia.
Qed.

(** A text without a colon, or with more than one (say with seconds), is
    refused. *)
Theorem parse_hhmm_needs_one_colon (s : str) :
  count_occ N.eq_dec s 58%N <> 1%nat -> parse_hhmm s = Raise ValueError.
Proof.
  intros N. unfold parse_hhmm.
  pose proof (split_on_length 58%N s) as L.
  destruct (split_on 58%N s) as [|hh [|mm [|x l]]]; try reflexivity.
  cbn [List.length] in L. lia.
Qed.

Lemma load_config_times (environ : str -> option str) (cfg : Config) :
  load_config environ = Ok cfg ->
  exists s1 s2,
    parse_hhmm s1 = Ok (TRADE_START cfg) /\ parse_hhmm s2 = Ok (TRADE_END cfg)
    /\ SECRET cfg = strip (match environ (lit "SECRET") with
                           | Some v => v
                           | None => []
                           end).
Proof.
  unfold load_config.
  destruct (parse_hhmm (getenv_stripped environ "TRADE_START" "05:00"))
    as [t1|e1] eqn:E1; [|discriminate].
  destruct (parse_hhmm (getenv_stripped environ "TRADE_END" "16:00"))
    as [t2|e2] eqn:E2; [|discriminate].
  cbn [bind]. intros E; injection E as <-. cbn. eauto.
Qed.

(** Every configuration the service starts with has a window of two valid
    times of day, each on the minute, and a trimmed secret. *)
Theorem loaded_config_is_valid (environ : str -> option str) (cfg : Config) :
  load_config environ = Ok cfg ->
  valid_time (TRADE_START cfg) /\ valid_time (TRADE_END cfg)
  /\ second (TRADE_START cfg) = 0 /\ microsecond (TRADE_START cfg) = 0
  /\ second (TRADE_END cfg) = 0 /\ microsecond (TRADE_END cfg) = 0
  /\ strip (SECRET cfg) = SECRET cfg.
Proof.
  intros L. destruct (load_config_times environ cfg L) as (s1 & s2 & P1 & P2 & S).
  destruct (parse_hhmm_valid s1 _ P1) as (V1 & A1 & B1).
  destruct (parse_hhmm_valid s2 _ P2) as (V2 & A2 & B2).
  repeat split; try assumption; try apply V1; try apply V2.
  rewrite S. apply strip_idem.
Qed.

End Startup.

Section WindowEdges.
Variable cfg : Config.

(** A window whose end comes before its start (an overnight window) admits
    no instant at all while enforcement is on. *)
Theorem overnight_window_admits_nothing (dt : datetime) :
  ENFORCE_HOURS cfg = lit "1" ->
  valid_time (TRADE_START cfg) ->
  valid_time (TRADE_END cfg) ->
  valid_time (tod dt) ->
  micros_of_day (TRADE_END cfg) < micros_of_day (TRADE_START cfg) ->
  in_trade_window cfg dt = false.
Proof.
  intros On Vs Ve Vt Lt.
  rewrite (in_trade_window_on cfg dt On).
  destruct (time_leb (TRADE_START cfg) (tod dt)) eqn:E1; [|reflexivity].
  destruct (time_leb (tod dt) (TRADE_END cfg)) eqn:E2; [|reflexivity].
  apply (time_leb_micros _ _ Vs Vt) in E1.
  apply (time_leb_micros _ _ Vt Ve) in E2. lia.
Qed.

(** The end of the window is an instant, not a minute: with an end on the
    minute, as [parse_hhmm] returns it, the gate admits that minute at
    second 0, microsecond 0 only, and turns the rest of the minute away. *)
Theorem window_shuts_within_end_minute (dt : datetime) :
  ENFORCE_HOURS cfg = lit "1" ->
  second (TRADE_END cfg) = 0 ->
  microsecond (TRADE_END cfg) = 0 ->
  hour (tod dt) = hour (TRADE_END cfg) ->
  minute (tod dt) = minute (TRADE_END cfg) ->
  0 <= second (tod dt) ->
  0 <= microsecond (tod dt) ->
  (in_trade_window cfg dt = true ->
   second (tod dt) = 0 /\ microsecond (tod dt) = 0)
  /\ (second (tod dt) = 0 -> microsecond (tod dt) = 0 ->
      in_trade_window cfg dt = time_leb (TRADE_START cfg) (tod dt)).
Proof.
  intros On S0 U0 Hh Hm Hs Hu. rewrite (in_trade_window_on cfg dt On).
  assert (E : time_leb (tod dt) (TRADE_END cfg) = true
              <-> second (tod dt) = 0 /\ microsecond (tod dt) = 0).
  { unfold time_leb. rewrite Hh, Hm, S0, U0.
    rewrite !Z.ltb_irrefl.
    destruct (Z.ltb_spec (second (tod dt)) 0); [lia|].
    destruct (Z.ltb_spec 0 (second (tod dt))); [split; [discriminate|lia]|].
    rewrite Z.leb_le. lia. }
  split.
  - rewrite andb_true_iff. intros [_ H]. apply E. exact H.
  - intros A B. rewrite (proj2 E (conj A B)), andb_true_r. reflexivity.
Qed.

End WindowEdges.

(** ** The store under sequences of requests *)

Section StoreSequences.
Context {R : Runtime}.
Variable cfg : Config.




End StoreSequences.

Section Overwrite.
Context {R : Runtime}.
Variable cfg : Config.


End Overwrite.

(** ** Racing pulls, whatever the schedule *)

Section Races.
Context {R : Runtime}.
Variable cfg : Config.
Variable o : obj.






End Races.

(** ** Integers through [float] and back *)

Section IntegerMagic.
Context {R : Runtime}.

Lemma digits2_pos_log2 (m : positive) :
  Zpos (digits2_pos m) = Z.log2 (Zpos m) + 1.
Proof.
  assert (S : forall p, digits2_pos p = Pos.size p)
    by (induction p as [p IH|p IH|]; cbn; congruence).
  destruct m as [p|p|]; cbn [digits2_pos Z.log2]; rewrite ?S; lia.
Qed.

Lemma iter_xO_spec (m p : positive) :
  Zpos (Pos.iter xO m p) = Zpos m * 2 ^ Zpos p
  /\ Zpos (digits2_pos (Pos.iter xO m p)) = Zpos (digits2_pos m) + Zpos p.
Proof.
  induction p as [|p [IH1 IH2]] using Pos.peano_ind.
  - cbn [Pos.iter digits2_pos]. split; lia.
  - rewrite Pos.iter_succ. cbn [digits2_pos].
    rewrite Pos2Z.inj_xO, IH1, Pos2Z.inj_succ, Z.pow_succ_r by lia.
    split; [ring | lia].
Qed.

(** A mantissa of 53 bits with an exponent in -52..0 is already rounded. *)
Lemma binary_round_aux_exact (s : bool) (mz : positive) (ez : Z) :
  Zpos (digits2_pos mz) = 53 ->
  -52 <= ez <= 0 ->
  binary_round_aux prec emax s (Zpos mz) ez loc_Exact = S754_finite s mz ez.
Proof.
  intros D E. unfold binary_round_aux, shr_fexp, fexp, emin, Zdigits2, prec, emax.
  cbn [shr_record_of_loc]. rewrite D.
  replace (Z.max (53 + ez - 53) (3 - 1024 - 53) - ez) with 0 by lia.
  cbn [shr shr_m loc_of_shr_record round_nearest_even shr_record_of_loc].
  rewrite D.
  replace (Z.max (53 + ez - 53) (3 - 1024 - 53) - ez) with 0 by lia.
  cbn [shr shr_m].
  destruct (Z.leb_spec ez (1024 - 53)); [reflexivity | lia].
Qed.

(** [float(n)] of an integer of at most 53 bits is exact: [int] of it is [n]
    again. *)
Lemma binary_round_exact (s : bool) (m : positive) :
  Zpos m < 2 ^ 53 ->
  exists mz ez,
    binary_round prec emax s m 0 = S754_finite s mz ez
    /\ Z.shiftl (Zpos mz) ez = Zpos m.
Proof.
  intros B.
  assert (D : 1 <= Zpos (digits2_pos m) <= 53).
  { rewrite digits2_pos_log2.
    pose proof (Z.log2_nonneg (Zpos m)).
    assert (Z.log2 (Zpos m) < 53) by (apply Z.log2_lt_pow2; lia). lia. }
  unfold binary_round, fexp, emin, prec, emax.
  replace (Z.max (Zpos (digits2_pos m) + 0 - 53) (3 - 1024 - 53))
    with (Zpos (digits2_pos m) - 53) by lia.
  unfold shl_align.
  destruct (Zpos (digits2_pos m) - 53 - 0) as [|p|p] eqn:E; try lia.
  - exists m, 0. split; [|reflexivity].
    apply (binary_round_aux_exact s m 0); lia.
  - destruct (iter_xO_spec m p) as [V G].
    exists (Pos.iter xO m p), (Zpos (digits2_pos m) - 53). split.
    + apply binary_round_aux_exact; lia.
    + replace (Zpos (digits2_pos m) - 53) with (- Zpos p) by lia.
      rewrite Z.shiftl_opp_r, Z.shiftr_div_pow2, V by lia.
      apply Z.div_mul. apply Z.pow_nonzero; lia.
Qed.

Lemma float_of_Z_exact (z : Z) :
  z <> 0 -> Z.abs z < 2 ^ 53 ->
  exists f,
    float_of_Z z = Some f /\ float_truthy f = true /\ int_of_float f = Ok z.
Proof.
  intros NZ B. unfold float_of_Z, binary_normalize.
  destruct z as [|m|m]; [contradiction| |].
  - destruct (binary_round_exact false m B) as (mz & ez & -> & S).
    eexists. split; [reflexivity|]. split; [reflexivity|]. cbn. congruence.
  - destruct (binary_round_exact true m B) as (mz & ez & -> & S).
    eexists. split; [reflexivity|]. split; [reflexivity|]. cbn.
    rewrite S. reflexivity.
Qed.

(** An integer under [magic] that is not zero and has at most 53 bits (every
    magic number a terminal can hold) is the magic number of the signal,
    digit for digit. *)
Theorem integer_magic_is_kept (d : list (str * pyval)) (now : datetime)
    (uuid8 : str) (sig : Signal) (z : Z) :
  build_signal (PDict d) now uuid8 = Ok sig ->
  field_of d "magic" = PInt z ->
  z <> 0 ->
  Z.abs z < 2 ^ 53 ->
  s_magic sig = z.
Proof.
  intros B F NZ Bd.
  destruct (build_signal_inv _ _ _ _ B) as (d' & E & _ & _ & _ & M & _).
  injection E as <-. rewrite F in M.
  destruct (float_of_Z_exact z NZ Bd) as (f & Ff & T & I).
  unfold magic_of, py_or in M. cbn [truthy] in M.
  destruct (Z.eqb_spec z 0); [contradiction|]. cbn [negb safe_float] in M.
  rewrite Ff, T, I in M. congruence.
Qed.

End IntegerMagic.

(** ** The answers of a pull *)

Section PullAnswers.
Context {R : Runtime}.
Variable cfg : Config.

(** The text a pull answers with always opens with [OK|] and has ten fields
    at least, so it is never the text NONE: whatever the signal holds, the
    answer with a signal and the answer without one are told apart, in text
    and in JSON. *)
Theorem pull_answers_told_apart (fmt : str) (sig : Signal) :
  is_prefix (lit "OK|") (line_text sig) = true
  /\ (10 <= List.length (split_on pipe (line_text sig)))%nat
  /\ absent_answer (pull_present fmt sig) = false
  /\ absent_answer (pull_absent fmt) = true.
Proof.
  split; [reflexivity|]. split.
  - rewrite split_on_length. unfold line_text. cbn [join].
    repeat rewrite count_occ_app. cbn. lia.
  - unfold pull_present, pull_absent.
    destruct (str_eqb fmt (lit "txt")); split; reflexivity.
Qed.

(** A non-empty secret in the body that does not match settles the call:
    it is answered 401 even when the header or the query carries the right
    secret. *)
Theorem wrong_body_secret_is_unauthorized (d : list (str * pyval))
    (c : codepoint) (s : str) (h q : option str) (now now_sig : datetime)
    (uuid8 : str) (st : State) :
  field_of d "secret" = PStr (c :: s) ->
  strip (c :: s) <> SECRET cfg ->
  webhook cfg (PDict d) h q now now_sig uuid8 st = (Unauthorized, st).
Proof.
  intros F N. unfold webhook, webhook_auth. cbn [dict_get bind].
  change (match assoc (lit "secret") d with Some v => v | None => PNone end)
    with (field_of d "secret").
  rewrite F. unfold check_secret.
  destruct (str_eqb (SECRET cfg) []); [reflexivity|].
  apply str_eqb_false in N.
  change (py_or (py_or (PStr (c :: s)) ?x) ?y) with (PStr (c :: s)).
  cbn [py_strip bind]. rewrite N. reflexivity.
Qed.

End PullAnswers.

(** ** Concrete runs of the rest *)

Import Wire.
Import Edge.

(** The buy of the specification, from the wire: the JSON body, sent with or
    without the JSON content type, is stored and pulled as text. *)
Example scenario_buy_from_the_wire :
  fst (webhook_request open_cfg true json_buy None None ten_oclock ten_oclock
                       uuid8 initial_state)
  = Stored (lit "1b9d6bcd") (lit "2026-03-07T10:00:00-04:00")
  /\ webhook_request open_cfg false json_buy None None ten_oclock ten_oclock
                     uuid8 initial_state
     = webhook open_cfg buy_payload None None ten_oclock ten_oclock uuid8
               initial_state.
Proof. split; vm_compute; reflexivity. Qed.

(** The id [a|b] from the wire to the wire: a JSON body carries it in, the
    pull line carries eleven fields out. *)
Example piped_id_from_the_wire :
  let st1 := snd (webhook_request open_cfg false json_piped_id None None
                                  ten_oclock ten_oclock uuid8 initial_state) in
  fst (pull open_cfg None good_secret txt st1)
  = PullText (lit "OK|a|b|BUY|XAUUSD|0.01|||2026-03-07T10:00:00-04:00|2026|TV").
Proof. vm_compute. reflexivity. Qed.

(** [decode_pipe_dialect] at key=value lines that hold a pipe and the word
    buy: they are cut at the pipe, and no [secret] is found. *)
Lemma decode_pipe_dialect_witness :
  dict_get (parse_body_to_dict false kv_with_pipe) (lit "symbol")
  = Ok (PStr (lit "b"))
  /\ dict_get (parse_body_to_dict false kv_with_pipe) (lit "lots") = Ok PNone
  /\ dict_get (parse_body_to_dict false kv_with_pipe) (lit "secret") = Ok PNone.
Proof.
  destruct (@decode_pipe_dialect ascii_runtime plain_json kv_with_pipe)
    as (_ & _ & Y & L & _ & _ & O).
  - intros H. vm_compute in H. discriminate H.
  - intros H. vm_compute in H. discriminate H.
  - vm_compute. reflexivity.
  - split; [rewrite Y; vm_compute; reflexivity|].
    split; [rewrite L; vm_compute; reflexivity|].
    apply O. vm_compute. intros [H|[H|[H|[H|[H|[]]]]]]; discriminate H.
Defined.

(** [pipe_dialect_has_no_secret] at the same body: its [secret=abc123] line
    does not authenticate the call. *)
Lemma pipe_dialect_has_no_secret_witness :
  webhook_auth open_cfg (parse_body_to_dict false kv_with_pipe) None None
  = check_secret open_cfg PNone (of_opt None) (of_opt None)
  /\ webhook_request open_cfg false kv_with_pipe None None ten_oclock ten_oclock
                     uuid8 initial_state
     = (Unauthorized, initial_state).
Proof.
  apply (@pipe_dialect_has_no_secret ascii_runtime plain_json open_cfg
           kv_with_pipe None None ten_oclock ten_oclock uuid8 initial_state).
  - intros H. vm_compute in H. discriminate H.
  - intros H. vm_compute in H. discriminate H.
  - vm_compute. reflexivity.
Defined.

(** [decode_key_value] at six lines: the key of the first is trimmed, the
    later [lots] wins, the line without [=] is skipped and the value of
    [comment] keeps its own [=]. *)
Lemma decode_key_value_witness :
  dict_get (parse_body_to_dict false kv_sell) (lit "secret")
  = Ok (PStr (lit "abc123"))
  /\ dict_get (parse_body_to_dict false kv_sell) (lit "lots")
     = Ok (PStr (lit "0.7"))
  /\ dict_get (parse_body_to_dict false kv_sell) (lit "comment")
     = Ok (PStr (lit "a=b"))
  /\ dict_get (parse_body_to_dict false kv_sell) (lit "note") = Ok PNone.
Proof.
  destruct (@decode_key_value ascii_runtime plain_json kv_sell) as [K _].
  - intros H. vm_compute in H. discriminate H.
  - intros H. vm_compute in H. discriminate H.
  - vm_compute. reflexivity.
  - repeat split; rewrite K; vm_compute; reflexivity.
Defined.

(** [undecodable_body_rejected] at a pipe line sent as JSON: it is not read
    by position, and the authenticated call is answered 400. *)
Lemma undecodable_body_rejected_witness :
  parse_body_to_dict true pipe_sell = PDict []
  /\ snd (webhook_request open_cfg true pipe_sell good_header None ten_oclock
                          ten_oclock uuid8 after_buy) = after_buy
  /\ (let r := fst (webhook_request open_cfg true pipe_sell good_header None
                                    ten_oclock ten_oclock uuid8 after_buy) in
      r = Unauthorized
      \/ r = OutsideTradeWindow (isoformat ten_oclock) (START_HHMM open_cfg)
                                (END_HHMM open_cfg)
      \/ r = MissingAction).
Proof.
  apply (@undecodable_body_rejected ascii_runtime plain_json open_cfg true
           pipe_sell good_header None ten_oclock ten_oclock uuid8 after_buy).
  left. split; [reflexivity | vm_compute; reflexivity].
Defined.

(** [non_object_json_is_server_error] at the body [[1]], with no secret
    configured and none sent. *)
Lemma non_object_json_is_server_error_witness :
  webhook_request unset_cfg true json_array None None ten_oclock ten_oclock
                  uuid8 after_buy
  = (ServerError AttributeError, after_buy).
Proof.
  apply (@non_object_json_is_server_error ascii_runtime plain_json unset_cfg
           json_array (PList [PInt 1])).
  - vm_compute. reflexivity.
  - reflexivity.
  - reflexivity.
Defined.

(** [stored_signals_well_formed] at the store after the accepted buy. *)
Lemma stored_signals_well_formed_witness :
  well_formed (val stored_obj)
  /\ (s_action (val stored_obj) = lit "BUY"
      \/ s_action (val stored_obj) = lit "SELL")
  /\ (addr stored_obj < next_addr after_buy)%nat.
Proof.
  apply (@stored_signals_well_formed ascii_runtime open_cfg after_buy).
  - apply (reach_step open_cfg
             (ReqWebhook buy_payload None None ten_oclock ten_oclock uuid8)
             initial_state).
    apply reach_init.
  - left. vm_compute. reflexivity.
Defined.

(** [blank_field_stays_empty] at a symbol of two spaces. *)
Lemma blank_field_stays_empty_witness :
  exists sig,
    build_signal (PDict blank_symbol_dict) ten_oclock uuid8 = Ok sig
    /\ s_symbol sig = [].
Proof.
  eexists. split; [vm_compute; reflexivity|].
  refine (proj1 (@blank_field_stays_empty ascii_runtime blank_symbol_dict
                   ten_oclock uuid8 _ 32%N [32%N] _ _) _).
  - vm_compute. reflexivity.
  - reflexivity.
  - reflexivity.
Defined.

(** [text_body_never_server_error] at the pipe line of the specification. *)
Lemma text_body_never_server_error_witness :
  In (status_code (fst (webhook_request open_cfg false pipe_sell good_header
                                        None ten_oclock ten_oclock uuid8
                                        initial_state)))
     [200; 401; 403; 400].
Proof.
  apply (@text_body_never_server_error ascii_runtime plain_json open_cfg
           pipe_sell).
  - intros H. vm_compute in H. discriminate H.
  - intros m H. vm_compute in H. injection H as <-. exists 2026. reflexivity.
Defined.

(** [non_text_body_secret_is_server_error] at the secret 123, with the right
    secret in the header. *)
Lemma non_text_body_secret_is_server_error_witness :
  webhook open_cfg (PDict numeric_secret_dict) good_header None ten_oclock
          ten_oclock uuid8 after_buy
  = (ServerError AttributeError, after_buy).
Proof.
  apply (@non_text_body_secret_is_server_error ascii_runtime open_cfg
           numeric_secret_dict).
  - discriminate.
  - reflexivity.
  - reflexivity.
Defined.

(** [wrong_body_secret_is_unauthorized] at the body secret [nope], with the
    right secret in the header. *)
Lemma wrong_body_secret_is_unauthorized_witness :
  webhook open_cfg (PDict wrong_secret_dict) good_header None ten_oclock
          ten_oclock uuid8 after_buy
  = (Unauthorized, after_buy).
Proof.
  apply (@wrong_body_secret_is_unauthorized ascii_runtime open_cfg
           wrong_secret_dict 110%N (lit "ope")).
  - reflexivity.
  - vm_compute. discriminate.
Defined.

(** [parse_hhmm_accepts] at 09:01, read both ways. *)
Example parse_hhmm_samples :
  parse_hhmm (lit "09:01") = Ok (mk_time 9 1 0 0)
  /\ parse_hhmm (lit "24:00") = Raise ValueError
  /\ parse_hhmm (lit "9:60") = Raise ValueError
  /\ parse_hhmm (lit "0900") = Raise ValueError
  /\ parse_hhmm (lit "09:00:00") = Raise ValueError
  /\ parse_hhmm (lit "nine:00") = Raise ValueError.
Proof. repeat split; vm_compute; reflexivity. Qed.

(** [parse_hhmm_needs_one_colon] at a time with seconds. *)
Lemma parse_hhmm_needs_one_colon_witness :
  parse_hhmm (lit "09:00:00") = Raise ValueError.
Proof.
  apply (@parse_hhmm_needs_one_colon ascii_runtime (lit "09:00:00")).
  vm_compute. discriminate.
Defined.

(** [loaded_config_is_valid] at the environment of the narrow deployment. *)
Lemma loaded_config_is_valid_witness :
  valid_time (TRADE_START narrow_cfg) /\ valid_time (TRADE_END narrow_cfg)
  /\ second (TRADE_START narrow_cfg) = 0 /\ microsecond (TRADE_START narrow_cfg) = 0
  /\ second (TRADE_END narrow_cfg) = 0 /\ microsecond (TRADE_END narrow_cfg) = 0
  /\ strip (SECRET narrow_cfg) = SECRET narrow_cfg.
Proof.
  apply (@loaded_config_is_valid ascii_runtime
           (environ " abc123 " "1" "09:00" "09:01") narrow_cfg).
  vm_compute. reflexivity.
Defined.

(** [overnight_window_admits_nothing] at 22:00-06:00: eleven at night is
    outside. *)
Lemma overnight_window_admits_nothing_witness :
  in_trade_window overnight_cfg eleven_pm = false.
Proof.
  apply (overnight_window_admits_nothing overnight_cfg eleven_pm).
  - reflexivity.
  - unfold valid_time. cbn. lia.
  - unfold valid_time. cbn. lia.
  - unfold valid_time. cbn. lia.
  - vm_compute. reflexivity.
Defined.

(** [window_shuts_within_end_minute] at the end 09:01: one microsecond later
    the gate is shut. *)
Lemma window_shuts_within_end_minute_witness :
  in_trade_window narrow_cfg just_after_nine_oh_one = false.
Proof.
  destruct (in_trade_window narrow_cfg just_after_nine_oh_one) eqn:E;
    [|reflexivity].
  assert (S : 0 <= second (tod just_after_nine_oh_one)) by (cbn; lia).
  assert (U : 0 <= microsecond (tod just_after_nine_oh_one)) by (cbn; lia).
  destruct (proj1 (window_shuts_within_end_minute narrow_cfg
                     just_after_nine_oh_one eq_refl eq_refl eq_refl eq_refl
                     eq_refl S U) E) as [_ M].
  discriminate M.
Defined.


(** ... and the last request of that sequence still reads the signal. *)
Example latest_after_pull :
  fst (serve open_cfg
         [ReqPull None good_secret txt; ReqHealth ten_oclock;
          ReqLatest None good_secret] after_buy)
  = [pull_present (lit "txt") (built buy_payload);
     Health (lit "2026-03-07T10:00:00-04:00") true false (Some (lit "1b9d6bcd"));
     Latest (Some (built buy_payload))].
Proof. vm_compute. reflexivity. Qed.



(** [integer_magic_is_kept] at the JSON number 7. *)
Lemma integer_magic_is_kept_witness :
  exists sig,
    build_signal (PDict int_magic_dict) ten_oclock uuid8 = Ok sig
    /\ s_magic sig = 7.
Proof.
  eexists. split; [vm_compute; reflexivity|].
  apply (@integer_magic_is_kept ascii_runtime int_magic_dict ten_oclock uuid8
           _ 7).
  - vm_compute. reflexivity.
  - reflexivity.
  - discriminate.
  - reflexivity.
Defined.
